(** * spin-vm: the interactive VM provisioning front-end, verified

    A shallow embedding of [spin-vm.py].  Python [str] values are Rocq
    [string]s, a character standing for the code point of its number
    (U+0000 to U+00FF); Python lists are [list]s,
    the filesystem is a finite map from path strings to nodes, and the
    interactive parts (the [dialog] renderer, [input()], external commands)
    are driven by a script of replies and recorded in a log of events. *)

From Stdlib Require Import Ascii String List Lia DecimalString.
From stdpp Require Import base option list sorting strings gmap.


(** ** Python string methods used by the program *)

Module PyStr.

(** [s.startswith(p)] *)
Fixpoint startswith (p s : string) : bool :=
  match p with
  | "" => true
  | String a p' =>
      match s with
      | "" => false
      | String b s' => Ascii.eqb a b && startswith p' s'
      end
  end.

(** [s.endswith(suf)]: some tail of [s] is [suf]. *)
Fixpoint endswith (suf s : string) : bool :=
  String.eqb s suf ||
  match s with
  | "" => false
  | String _ s' => endswith suf s'
  end.

(** [sub in s] *)
Fixpoint contains (sub s : string) : bool :=
  startswith sub s ||
  match s with
  | "" => false
  | String _ s' => contains sub s'
  end.

(** [s.replace(old, new)] for a non-empty [old]: occurrences are found
    from left to right and do not overlap.  [skip] counts the characters
    of a matched occurrence that are still to be dropped. *)
Fixpoint replace_go (old new : string) (skip : nat) (s : string) : string :=
  match s with
  | "" => ""
  | String c s' =>
      match skip with
      | S k => replace_go old new k s'
      | O =>
          if startswith old s
          then new +:+ replace_go old new (String.length old - 1) s'
          else String c (replace_go old new 0 s')
      end
  end.

Definition replace (old new s : string) : string := replace_go old new 0 s.

(** The white space that [str.strip()] removes, among the code points
    U+0000 to U+00FF: TAB, LF, VT, FF, CR, the four separators FS, GS, RS
    and US, the space, NEL (U+0085) and the no-break space (U+00A0). *)
Definition isspace (c : ascii) : bool :=
  match c with
  | "009" | "010" | "011" | "012" | "013"
  | "028" | "029" | "030" | "031" | " "
  | "133" | "160" => true
  | _ => false
  end%char.

Fixpoint lstrip (s : string) : string :=
  match s with
  | "" => ""
  | String c s' => if isspace c then lstrip s' else s
  end.

Fixpoint rstrip (s : string) : string :=
  match s with
  | "" => ""
  | String c s' =>
      match rstrip s' with
      | "" => if isspace c then "" else String c ""
      | r => String c r
      end
  end.

(** [s.strip()] *)
Definition strip (s : string) : string := rstrip (lstrip s).

(** [s[:-1]] *)
Fixpoint drop_last (s : string) : string :=
  match s with
  | "" => ""
  | String c s' => match s' with "" => "" | _ => String c (drop_last s') end
  end.

(** [sep.join(l)] *)
Fixpoint join (sep : string) (l : list string) : string :=
  match l with
  | [] => ""
  | [x] => x
  | x :: l' => x +:+ sep +:+ join sep l'
  end.

(** [c.lower()] among the code points U+0000 to U+00FF: the letters A to
    Z, and the capital letters U+00C0 to U+00DE (the multiplication sign
    U+00D7 among them is no letter and stays). *)
Definition lower_char (c : ascii) : ascii :=
  let n := nat_of_ascii c in
  if (65 <=? n)%nat && (n <=? 90)%nat then ascii_of_nat (n + 32)
  else if (192 <=? n)%nat && (n <=? 222)%nat && negb (n =? 215)%nat
       then ascii_of_nat (n + 32)
  else c.

Fixpoint lower (s : string) : string :=
  match s with
  | "" => ""
  | String c s' => String (lower_char c) (lower s')
  end.

(** [str(n)] for a natural number. *)
Definition of_nat (n : nat) : string := NilEmpty.string_of_uint (Nat.to_uint n).

(** Truth value of an optional string: [None] and [""] are false. *)
Definition truthy (o : option string) : bool :=
  match o with
  | None | Some "" => false
  | Some _ => true
  end.

End PyStr.

(** ** [os.path] on POSIX *)

Module PosixPath.

(** [(p[:i], p[i:])] with [i = p.rfind('/') + 1]. *)
Fixpoint rsplit (p : string) : string * string :=
  match p with
  | "" => ("", "")
  | String c p' =>
      match rsplit p' with
      | ("", t) => if Ascii.eqb c "/" then ("/", t) else ("", String c t)
      | (h, t) => (String c h, t)
      end
  end.

(** [os.path.basename] *)
Definition basename (p : string) : string := snd (rsplit p).

Fixpoint all_slashes (s : string) : bool :=
  match s with
  | "" => true
  | String c s' => Ascii.eqb c "/" && all_slashes s'
  end.

(** [s.rstrip('/')] *)
Fixpoint rstrip_slash (s : string) : string :=
  match s with
  | "" => ""
  | String c s' =>
      match rstrip_slash s' with
      | "" => if Ascii.eqb c "/" then "" else String c ""
      | r => String c r
      end
  end.

(** [os.path.dirname]: the head up to the last slash, with trailing
    slashes removed unless the head consists of slashes only. *)
Definition dirname (p : string) : string :=
  let head := fst (rsplit p) in
  if all_slashes head then head else rstrip_slash head.

(** [os.path.join(a, b)] *)
Definition join (a b : string) : string :=
  if PyStr.startswith "/" b then b
  else if String.eqb a "" || PyStr.endswith "/" a then a +:+ b
  else a +:+ "/" +:+ b.

End PosixPath.

(** ** Constants (lines 8 to 11) *)

Definition QEMU_BIN : string := "qemu-system-x86_64".
Definition OVMF_CODE : string := "/usr/share/OVMF/OVMF_CODE_4M.fd".
Definition OVMF_VARS_TEMPLATE : string := "/usr/share/OVMF/OVMF_VARS_4M.fd".
Definition BACKTITLE : string :=
  "SIMPLE VM CREATOR by Alexia Michelle https://github.com/alexiarstein/spin-vm".

(** ** Setup Paths (lines 166 to 168) *)

Definition disk_name (iso_path : string) (is_uefi : bool) : string :=
  PyStr.replace ".iso" "" (PosixPath.basename iso_path)
    +:+ (if is_uefi then ".uefi" else "") +:+ ".qcow2".

Definition disk_path (vm_dir iso_path : string) (is_uefi : bool) : string :=
  PosixPath.join vm_dir (disk_name iso_path is_uefi).

Definition vars_path (vm_dir iso_path : string) : string :=
  PosixPath.join vm_dir
    ("OVMF_VARS_" +:+ PyStr.replace ".iso" "" (PosixPath.basename iso_path) +:+ ".fd").


(** ** QEMU Args (lines 171 to 187, 207, 215, 227 to 228) *)

Definition base_args (disk_path : string) : list string :=
  [ QEMU_BIN;
    "-enable-kvm";
    "-m"; "2048";
    "-smp"; "4";
    "-cpu"; "host";
    "-drive"; "file=" +:+ disk_path +:+ ",format=qcow2,if=virtio";
    "-netdev"; "user,id=net0";
    "-device"; "virtio-net-pci,netdev=net0";
    "-display"; "gtk" ].

Definition uefi_args (vars_path : string) : list string :=
  [ "-drive"; "if=pflash,format=raw,readonly=on,file=" +:+ OVMF_CODE;
    "-drive"; "if=pflash,format=raw,file=" +:+ vars_path ].

(** [qemu_args] as it stands after line 187. *)
Definition qemu_args (disk_path vars_path : string) (is_uefi : bool) : list string :=
  base_args disk_path ++ (if is_uefi then uefi_args vars_path else []).

Definition install_args (qemu_args : list string) (iso_path : string) : list string :=
  qemu_args ++ ["-cdrom"; iso_path; "-boot"; "order=d"].

Definition run_args (qemu_args : list string) : list string :=
  qemu_args ++ ["-boot"; "order=c"].

(** [arg in l] on strings *)
Definition str_in (arg : string) (l : list string) : bool :=
  existsb (String.eqb arg) l.

(** Lines 227 and 228: the argument list of the re-launch. *)
Definition rerun_args (qemu_args : list string) (iso_path : string) : list string :=
  List.filter (fun arg => negb (str_in arg ["-cdrom"; iso_path; "order=d"; "-boot"])) qemu_args
    ++ ["-boot"; "order=c"].

(** ** The filesystem *)

(** What a path denotes.  [Special] stands for sockets, FIFOs and device
    nodes; [Dangling] for a symbolic link whose target is missing, which
    [os.listdir] reports and [os.path.exists] does not. *)
Inductive node : Type :=
| Dir (readable : bool)
| File (data : string)
| Special
| Dangling.

Global Instance node_eq_dec : EqDecision node.
Proof. solve_decision. Defined.

Inductive exception : Type :=
| FileNotFoundError
| NotADirectoryError
| IsADirectoryError
| FileExistsError
| EOFError.

Inductive listing : Type :=
| LsOk (items : list string)
| LsDenied
| LsError (e : exception).

Module Fs.

(** [os.path.isdir], [os.path.isfile], [os.path.exists] *)
Definition isdir (fs : gmap string node) (p : string) : bool :=
  match fs !! p with Some (Dir _) => true | _ => false end.

Definition isfile (fs : gmap string node) (p : string) : bool :=
  match fs !! p with Some (File _) => true | _ => false end.

Definition exists_ (fs : gmap string node) (p : string) : bool :=
  match fs !! p with Some Dangling | None => false | Some _ => true end.

(** The names directly under [p]: the keys that [p] joined with their own
    base name gives back.  As in [os.listdir], the entries [.] and [..]
    are never among them. *)
Definition child_name (p : string) (kv : string * node) : option string :=
  let n := PosixPath.basename kv.1 in
  if negb (str_in n [""; "."; ".."]) && String.eqb (PosixPath.join p n) kv.1
  then Some n else None.

Definition children (fs : gmap string node) (p : string) : list string :=
  omap (child_name p) (map_to_list fs).

(** [os.listdir]; the order of the names is the map's. *)
Definition listdir (fs : gmap string node) (p : string) : listing :=
  match fs !! p with
  | Some (Dir true) => LsOk (children fs p)
  | Some (Dir false) => LsDenied
  | Some (File _) | Some Special => LsError NotADirectoryError
  | Some Dangling | None => LsError FileNotFoundError
  end.

(** [os.remove] *)
Definition remove (fs : gmap string node) (p : string) : exception + gmap string node :=
  match fs !! p with
  | Some (Dir _) => inl IsADirectoryError
  | Some Dangling | Some (File _) | Some Special => inr (delete p fs)
  | None => inl FileNotFoundError
  end.

(** [shutil.copy(src, dst)]: a directory as [dst] receives the file under
    the source's base name. *)
Definition copy (fs : gmap string node) (src dst : string) : exception + gmap string node :=
  match fs !! src with
  | Some (File data) =>
      if isdir fs dst
      then inr (<[PosixPath.join dst (PosixPath.basename src) := File data]> fs)
      else inr (<[dst := File data]> fs)
  | Some (Dir _) => inl IsADirectoryError
  | _ => inl FileNotFoundError
  end.

(** [os.makedirs(p, exist_ok=True)]: an existing directory is left as it
    is, a missing one is created together with its missing ancestors. *)
Fixpoint makedirs_go (n : nat) (fs : gmap string node) (p : string)
  : exception + gmap string node :=
  if isdir fs p then inr fs
  else if exists_ fs p then inl FileExistsError
  else
    let parent := PosixPath.dirname p in
    match n with
    | S n' =>
        if String.eqb parent "" || String.eqb parent p || isdir fs parent
        then inr (<[p := Dir true]> fs)
        else match makedirs_go n' fs parent with
             | inl e => inl e
             | inr fs' => inr (<[p := Dir true]> fs')
             end
    | O => inr (<[p := Dir true]> fs)
    end.

Definition makedirs (fs : gmap string node) (p : string) : exception + gmap string node :=
  makedirs_go (String.length p) fs p.

End Fs.

(** ** The world the program runs in *)

(** One answer of the operator: the renderer (or [input()]) ends with
    status 0 and the text [out], or it is cancelled (a non-zero status,
    end of input). *)
Inductive reply : Type :=
| Accept (out : string)
| Cancel.

(** The calls to the [dialog] renderer. *)
Inductive dialog_call : Type :=
| InputBox (title prompt default : string)
| FSelect (title path : string)
| DSelect (title path : string)
| Menu (title prompt : string) (choices : list (string * string)) (height width : nat)
| YesNo (title prompt yes_label no_label : string).

Inductive event : Type :=
| EDialog (call : dialog_call) (r : reply)
| EInput (prompt : string) (r : reply)
| ERun (cmd : list string) (status : nat)
| EPrint (line : string).

Record world : Type := World {
  fs : gmap string node;
  replies : list reply;
  log : list event
}.

(** What lies outside the program: [shutil.which], [os.path.abspath],
    [os.path.expanduser("~")] and the external commands.  A command that
    can be started ends with an exit status and may change the filesystem;
    for one that cannot be started (no such program) [exec] is [None]. *)
Record os_env : Type := OsEnv {
  which : string -> bool;
  abspath : string -> string;
  home : string;
  exec : list string -> gmap string node -> option (nat * gmap string node)
}.

(** How a computation ends: with a value, through [sys.exit], through an
    exception nobody catches, or waiting for an answer that never comes. *)
Inductive result (A : Type) : Type :=
| Ret (a : A)
| Exit (code : nat)
| Raise (e : exception)
| Blocked.

Arguments Ret {A} a.
Arguments Exit {A} code.
Arguments Raise {A} e.
Arguments Blocked {A}.

Definition M (A : Type) : Type := world -> result A * world.

Definition ret {A} (a : A) : M A := fun w => (Ret a, w).

Definition bind {A B} (m : M A) (k : A -> M B) : M B :=
  fun w =>
    match m w with
    | (Ret a, w') => k a w'
    | (Exit c, w') => (Exit c, w')
    | (Raise e, w') => (Raise e, w')
    | (Blocked, w') => (Blocked, w')
    end.

Declare Scope prog_scope.
Delimit Scope prog_scope with prog.
Bind Scope prog_scope with M.

Notation "x ← y ; z" := (bind y (fun x => z))
  (at level 20, y at level 100, z at level 200, only parsing) : prog_scope.
Notation "y ;; z" := (bind y (fun _ => z))
  (at level 100, z at level 200, only parsing, right associativity) : prog_scope.

Local Open Scope prog_scope.

(** The status the process ends with; an uncaught exception ends the
    interpreter with status 1. *)
Definition exit_status {A} (r : result A) : option nat :=
  match r with
  | Ret _ => Some 0
  | Exit c => Some c
  | Raise _ => Some 1
  | Blocked => None
  end.

Definition sys_exit {A} (code : nat) : M A := fun w => (Exit code, w).

Definition raise {A} (e : exception) : M A := fun w => (Raise e, w).

Definition emit (ev : event) (w : world) : world :=
  World (fs w) (replies w) (log w ++ [ev]).

Definition print (line : string) : M unit := fun w => (Ret tt, emit (EPrint line) w).

(** [input(prompt)] *)
Definition input (prompt : string) : M string :=
  fun w =>
    match replies w with
    | [] => (Blocked, w)
    | r :: rs =>
        let w' := World (fs w) rs (log w ++ [EInput prompt r]) in
        match r with
        | Accept line => (Ret line, w')
        | Cancel => (Raise EOFError, w')
        end
    end.

Definition path_exists (p : string) : M bool := fun w => (Ret (Fs.exists_ (fs w) p), w).

Definition path_isfile (p : string) : M bool := fun w => (Ret (Fs.isfile (fs w) p), w).

(** Lifts a filesystem operation that may raise. *)
Definition fs_update (op : gmap string node -> exception + gmap string node) : M unit :=
  fun w =>
    match op (fs w) with
    | inl e => (Raise e, w)
    | inr fs' => (Ret tt, World fs' (replies w) (log w))
    end.

Definition os_remove (p : string) : M unit := fs_update (fun fs => Fs.remove fs p).

Definition os_makedirs (p : string) : M unit := fs_update (fun fs => Fs.makedirs fs p).

Definition shutil_copy (src dst : string) : M unit := fs_update (fun fs => Fs.copy fs src dst).

(** ** Prompt gateway (lines 52 to 89) *)

Definition flatten_choices (choices : list (string * string)) : list string :=
  flat_map (fun c => [c.1; c.2]) choices.

(** The command line each call hands to [subprocess.run]. *)
Definition dialog_cmd (call : dialog_call) : list string :=
  match call with
  | InputBox title prompt default =>
      ["dialog"; "--backtitle"; BACKTITLE; "--title"; title;
       "--inputbox"; prompt; "10"; "60"; default]
  | FSelect title path =>
      ["dialog"; "--title"; title; "--fselect"; path; "15"; "70"]
  | DSelect title path =>
      ["dialog"; "--title"; title; "--dselect"; path; "15"; "70"]
  | Menu title prompt choices height width =>
      ["dialog"; "--backtitle"; BACKTITLE; "--title"; title; "--menu"; prompt;
       PyStr.of_nat height; PyStr.of_nat width; PyStr.of_nat (length choices)]
        ++ flatten_choices choices
  | YesNo title prompt yes_label no_label =>
      ["dialog"; "--backtitle"; BACKTITLE; "--title"; title;
       "--yes-label"; yes_label; "--no-label"; no_label; "--yesno"; prompt; "10"; "60"]
  end.

(** [result.stderr.strip()] if [result.returncode == 0], else [None]. *)
Definition text_result (r : reply) : option string :=
  match r with
  | Accept out => Some (PyStr.strip out)
  | Cancel => None
  end.

(** [result.returncode == 0] *)
Definition yes_result (r : reply) : bool :=
  match r with
  | Accept _ => true
  | Cancel => false
  end.

(** [subprocess.run] of a renderer call, with the renderer installed: it
    blocks until the operator answers. *)
Definition run_dialog (call : dialog_call) : M reply :=
  fun w =>
    match replies w with
    | [] => (Blocked, w)
    | r :: rs => (Ret r, World (fs w) rs (log w ++ [EDialog call r]))
    end.

Definition dialog_input (title prompt default : string) : M (option string) :=
  r ← run_dialog (InputBox title prompt default); ret (text_result r).

Definition dialog_fselect (title path : string) : M (option string) :=
  r ← run_dialog (FSelect title path); ret (text_result r).

Definition dialog_dselect (title path : string) : M (option string) :=
  r ← run_dialog (DSelect title path); ret (text_result r).

Definition dialog_menu (title prompt : string) (choices : list (string * string))
    (height width : nat) : M (option string) :=
  r ← run_dialog (Menu title prompt choices height width); ret (text_result r).

Definition dialog_yesno (title prompt yes_label no_label : string) : M bool :=
  r ← run_dialog (YesNo title prompt yes_label no_label); ret (yes_result r).

(** ** Filesystem browser (lines 91 to 138) *)

Definition nl : string := String "010"%char "".

(** Lines 104 to 118: the rows of the menu for the listing [items] of
    [current_path].  [sorted] is a merge sort by [String.le], which orders
    strings character by character as Python orders [str] values; the
    order is total and antisymmetric, so the sorted list does not depend
    on the sorting algorithm. *)
Definition choices (fs : gmap string node) (current_path : string) (select_dir : bool)
    (items : list string) : list (string * string) :=
  let dirs :=
    merge_sort String.le
      (List.filter (fun d => Fs.isdir fs (PosixPath.join current_path d)) items) in
  let files :=
    merge_sort String.le
      (List.filter (fun f => Fs.isfile fs (PosixPath.join current_path f)) items) in
  (if select_dir
   then [(".", "--> SELECT THIS DIRECTORY: " +:+ current_path +:+ " <--")]
   else [])
    ++ [("..", "../ (Go Up)")]
    ++ map (fun d => (d +:+ "/", "(Dir)")) dirs
    ++ map (fun f => (f, "(File)")) files.

(** Lines 120 and 121: the menu shown for a listing. *)
Definition browse_menu (fs : gmap string node) (current_path : string) (select_dir : bool)
    (title : string) (items : list string) : dialog_call :=
  Menu title
    ("Current Path: " +:+ current_path +:+ nl +:+ "Select a "
       +:+ (if select_dir then "directory" else "file") +:+ ":")
    (choices fs current_path select_dir items) 20 75.

(** Line 100: the notice shown when the listing is refused. *)
Definition denied_notice (current_path : string) : dialog_call :=
  YesNo "Error" ("Permission denied: " +:+ current_path) "Yes" "No".

(** What one selection does (lines 123 to 138). *)
Inductive browse_next : Type :=
| Return (res : option string)
| Goto (next_path : string).

Definition on_selection (current_path : string) (select_dir : bool)
    (selection : option string) : browse_next :=
  match selection with
  | None => Return None
  | Some selection =>
      if String.eqb selection "." then Return (Some current_path)
      else if String.eqb selection ".." then Goto (PosixPath.dirname current_path)
      else if PyStr.endswith "/" selection
           then Goto (PosixPath.join current_path (PyStr.drop_last selection))
      else if select_dir then Goto current_path
      else Return (Some (PosixPath.join current_path selection))
  end.

(** The [while True] loop (lines 96 to 138).  Every iteration that does
    not end the loop takes one answer of the operator, so the loop is
    recursive in the answers still to come.  The browser does not change
    the filesystem; it returns its result, the answers left and the events
    it produced. *)
Fixpoint browse_loop (fs : gmap string node) (select_dir : bool) (title : string)
    (current_path : string) (rs : list reply)
  : result (option string) * list reply * list event :=
  match Fs.listdir fs current_path with
  | LsError e => (Raise e, rs, [])
  | LsDenied =>
      match rs with
      | [] => (Blocked, [], [])
      | r :: rs' =>
          let '(res, rest, evs) :=
            browse_loop fs select_dir title (PosixPath.dirname current_path) rs' in
          (res, rest, EDialog (denied_notice current_path) r :: evs)
      end
  | LsOk items =>
      match rs with
      | [] => (Blocked, [], [])
      | r :: rs' =>
          let shown := EDialog (browse_menu fs current_path select_dir title items) r in
          match on_selection current_path select_dir (text_result r) with
          | Return res => (Ret res, rs', [shown])
          | Goto next_path =>
              let '(res, rest, evs) := browse_loop fs select_dir title next_path rs' in
              (res, rest, shown :: evs)
          end
      end
  end.

Section Program.

Context (env : os_env).

(** [subprocess.run(cmd)] of an external command: the exit status, or
    [FileNotFoundError] when the command cannot be started. *)
Definition subprocess_run (cmd : list string) : M nat :=
  fun w =>
    match exec env cmd (fs w) with
    | Some (status, fs') =>
        (Ret status, World fs' (replies w) (log w ++ [ERun cmd status]))
    | None => (Raise FileNotFoundError, w)
    end.

(** [repr] of a list of strings without quotes or escapes in them. *)
Definition repr_list (l : list string) : string :=
  "[" +:+ PyStr.join ", " (map (fun s => "'" +:+ s +:+ "'") l) +:+ "]".

(** Lines 13 to 23, as every caller uses it ([capture_output] and [shell]
    left at their defaults): [True] when the command ends with status 0;
    otherwise [CalledProcessError] is caught, reported, and the answer is
    [False].  No other exception is caught: [FileNotFoundError] of a
    command that cannot be started leaves the function. *)
Definition run_command (cmd : list string) : M bool :=
  status ← subprocess_run cmd;
  match status with
  | O => ret true
  | S _ =>
      print ("Error running command: " +:+ repr_list cmd +:+ nl
               +:+ "Command '" +:+ repr_list cmd +:+ "' returned non-zero exit status "
               +:+ PyStr.of_nat status +:+ ".");;
      ret false
  end.

(** Lines 38 to 41. *)
Definition package_of (m : string) : string :=
  if String.eqb m "ovmf" then "ovmf"
  else if PyStr.startswith "qemu" m then "qemu-system-x86"
  else m.

(** Lines 25 to 50.  [list(set(packages))] keeps one copy of each package;
    Python leaves the order open. *)
Definition check_dependencies : M unit :=
  fun w =>
    let deps := ["qemu-system-x86_64"; "qemu-img"; "dialog"] in
    let missing := List.filter (fun d => negb (which env d)) deps in
    let missing := if Fs.exists_ (fs w) OVMF_CODE then missing else missing ++ ["ovmf"] in
    match missing with
    | [] => (Ret tt, w)
    | _ =>
        (print ("Missing dependencies: " +:+ PyStr.join ", " missing);;
         choice ← input "Do you want to install them using apt? (y/n): ";
         if String.eqb (PyStr.lower choice) "y"
         then
           let packages := remove_dups (map package_of missing) in
           print ("Installing: " +:+ repr_list packages);;
           run_command ["sudo"; "apt"; "update"];;
           run_command (["sudo"; "apt"; "install"; "-y"] ++ packages);;
           ret tt
         else
           print "Cannot proceed without dependencies.";;
           sys_exit 1) w
    end.

(** Lines 91 to 94, then the loop. *)
Definition browse_path (start_path : string) (select_dir : bool) (title : string)
  : M (option string) :=
  fun w =>
    let current_path := abspath env start_path in
    let current_path :=
      if Fs.isdir (fs w) current_path then current_path else home env in
    let '(res, rest, evs) :=
      browse_loop (fs w) select_dir title current_path (replies w) in
    (res, World (fs w) rest (log w ++ evs)).

Definition mode_name (is_uefi : bool) : string := if is_uefi then "UEFI" else "BIOS".

(** Lines 189 to 207: install mode, from the arguments built so far to the
    arguments of the installation. *)
Definition install_mode (iso_path disk_path vars_path : string) (is_uefi : bool)
    (qemu_args : list string) : M (list string) :=
  print ("Starting INSTALL mode (" +:+ mode_name is_uefi +:+ ")");;
  disk_exists ← path_exists disk_path;
  (if disk_exists
   then
     overwrite ← dialog_yesno "Disk Exists"
       ("Disk " +:+ disk_path +:+ " already exists. Overwrite?") "Yes" "No";
     if overwrite then os_remove disk_path
     else print "Aborting.";; sys_exit 1
   else ret tt);;
  run_command ["qemu-img"; "create"; "-f"; "qcow2"; disk_path; "20G"];;
  (if is_uefi
   then
     vars_exist ← path_exists vars_path;
     (if vars_exist then os_remove vars_path else ret tt);;
     shutil_copy OVMF_VARS_TEMPLATE vars_path
   else ret tt);;
  ret (install_args qemu_args iso_path).

(** Lines 209 to 215: run mode. *)
Definition run_mode (disk_path : string) (is_uefi : bool) (qemu_args : list string)
  : M (list string) :=
  disk_exists ← path_exists disk_path;
  if negb disk_exists
  then
    print ("Disk not found: " +:+ disk_path +:+ ". Run install first.");;
    sys_exit 1
  else
    print ("Starting RUN mode (" +:+ mode_name is_uefi +:+ ")");;
    ret (run_args qemu_args).

(** Lines 165 to 215: from the selections to the argument list that is
    launched. *)
Definition build_invocation (iso_path vm_dir : string) (is_uefi : bool) (mode : string)
  : M (list string) :=
  let disk_path := disk_path vm_dir iso_path is_uefi in
  let vars_path := vars_path vm_dir iso_path in
  let qemu_args := qemu_args disk_path vars_path is_uefi in
  if String.eqb mode "install"
  then install_mode iso_path disk_path vars_path is_uefi qemu_args
  else run_mode disk_path is_uefi qemu_args.

(** Lines 218 to 229: the launch, and after an installation the offer to
    boot the new disk. *)
Definition launch (iso_path mode : string) (qemu_args : list string) : M unit :=
  print ("Launching QEMU: " +:+ PyStr.join " " qemu_args);;
  subprocess_run qemu_args;;
  if String.eqb mode "install"
  then
    again ← dialog_yesno "Install Complete"
      "Installation process finished. Do you want to run the VM now from the virtual drive?"
      "Yes" "No";
    if again
    then
      print "Restarting VM in RUN mode...";;
      subprocess_run (rerun_args qemu_args iso_path);;
      ret tt
    else ret tt
  else ret tt.

Definition session (iso_path vm_dir : string) (is_uefi : bool) (mode : string) : M unit :=
  qemu_args ← build_invocation iso_path vm_dir is_uefi mode;
  launch iso_path mode qemu_args.

(** Lines 160 to 163, then the session. *)
Definition choose_mode (iso_path vm_dir : string) (is_uefi : bool) : M unit :=
  mode ← dialog_menu "Action" "Select action:"
    [("install", "Install from ISO"); ("run", "Run installed machine from disk")] 15 60;
  if negb (PyStr.truthy mode) then sys_exit 1
  else session iso_path vm_dir is_uefi (default "" mode).

(** Lines 157 and 158, then the rest. *)
Definition choose_firmware (iso_path vm_dir : string) : M unit :=
  is_uefi ← dialog_yesno "Boot Emulation Mode"
    ("CHOOSE THE BOOT MODE FOR THE MACHINE:" +:+ nl +:+ nl
       +:+ "UEFI for a UEFI machine, BIOS for a BIOS machine") "UEFI" "BIOS";
  choose_mode iso_path vm_dir is_uefi.

(** Lines 151 to 155, then the rest. *)
Definition choose_vm_dir (iso_path : string) : M unit :=
  vm_dir ← browse_path "/home/alexia/" true "SELECT DIR TO INSTALL VIRTUAL DISK";
  if negb (PyStr.truthy vm_dir) then sys_exit 0
  else
    os_makedirs (default "" vm_dir);;
    choose_firmware iso_path (default "" vm_dir).

(** Lines 143 to 149, then the rest. *)
Definition choose_iso : M unit :=
  iso_path ← browse_path "/home/alexia/" false "SELECT ISO FILE";
  if negb (PyStr.truthy iso_path) then sys_exit 0
  else
    is_file ← path_isfile (default "" iso_path);
    if negb is_file
    then print ("Invalid ISO path: " +:+ default "" iso_path);; sys_exit 1
    else choose_vm_dir (default "" iso_path).

(** Lines 140 to 229. *)
Definition main : M unit :=
  check_dependencies;;
  choose_iso.

End Program.

(** ** The naming formula as the specification words it *)

(** The part of [s] before its last dot, if it has one. *)
Fixpoint cut_last_dot (s : string) : option string :=
  match s with
  | "" => None
  | String c s' =>
      match cut_last_dot s' with
      | Some r => Some (String c r)
      | None => if Ascii.eqb c "." then Some "" else None
      end
  end.

(** A name "with its extension stripped": what precedes the last dot; a
    dot in the first position does not start an extension. *)
Definition strip_extension (name : string) : string :=
  match name with
  | "" => ""
  | String c s' =>
      match cut_last_dot s' with
      | Some r => String c r
      | None => name
      end
  end.

Definition spec_disk_path (storage_dir medium : string) (uefi : bool) : string :=
  storage_dir +:+ "/" +:+ strip_extension (PosixPath.basename medium)
    +:+ (if uefi then ".uefi" else "") +:+ ".qcow2".

Definition spec_vars_path (storage_dir medium : string) : string :=
  storage_dir +:+ "/OVMF_VARS_" +:+ strip_extension (PosixPath.basename medium) +:+ ".fd".

(** A directory followed by exactly one separator. *)
Definition dir_prefix (d : string) : string :=
  if PyStr.endswith "/" d then d else d +:+ "/".

(** ** What the renderer is expected to answer *)


(** ** Reading the log *)

(** The external commands of a log, in the order they were run. *)
Definition event_cmd (ev : event) : option (list string) :=
  match ev with
  | ERun cmd _ => Some cmd
  | _ => None
  end.

(** Lines 26 to 31 on their own: what [check_dependencies] finds missing. *)
Definition missing_deps (env : os_env) (fs : gmap string node) : list string :=
  let missing :=
    List.filter (fun d => negb (which env d)) ["qemu-system-x86_64"; "qemu-img"; "dialog"] in
  if Fs.exists_ fs OVMF_CODE then missing else missing ++ ["ovmf"].

(** Line 22: what [run_command] prints about a command that ended with
    [status]; nothing for status 0. *)
Definition failure_report (cmd : list string) (status : nat) : list event :=
  match status with
  | O => []
  | S _ =>
      [EPrint ("Error running command: " +:+ repr_list cmd +:+ nl
                 +:+ "Command '" +:+ repr_list cmd +:+ "' returned non-zero exit status "
                 +:+ PyStr.of_nat status +:+ ".")]
  end.

(** ** A small machine to run the program on *)

(** An environment in which every tool is installed, [qemu-img create]
    writes a fresh image and no other command touches the files. *)
Definition demo_exec (cmd : list string) (fs : gmap string node)
  : option (nat * gmap string node) :=
  match cmd with
  | ["qemu-img"; "create"; "-f"; "qcow2"; p; "20G"] =>
      Some (0, <[p := File "qcow2 image, 20G"]> fs)
  | _ => Some (0, fs)
  end.

Definition demo_env : os_env :=
  OsEnv (fun _ => true) PosixPath.rstrip_slash "/root" demo_exec.

Definition demo_fs : gmap string node :=
  list_to_map
    [ ("/", Dir true); ("/home", Dir true); ("/home/alexia", Dir true);
      ("/home/alexia/ubuntu.iso", File "installer");
      ("/home/alexia/vms", Dir true);
      ("/home/alexia/vms/ubuntu.qcow2", File "installed system");
      ("/home/alexia/secret", Dir false);
      ("/home/alexia/pipe", Special);
      ("/home/alexia/pipe ", File "notes");
      ("/home/alexia/stale", Dangling);
      (OVMF_CODE, File "firmware code");
      (OVMF_VARS_TEMPLATE, File "firmware variables") ].

(** A machine with nothing installed: [sudo] starts and fails, no other
    program can be started, and nothing changes the files. *)
Definition bare_exec (cmd : list string) (fs : gmap string node)
  : option (nat * gmap string node) :=
  match cmd with
  | "sudo" :: _ => Some (1, fs)
  | _ => None
  end.

Definition bare_env : os_env :=
  OsEnv (fun _ => false) (fun p => p) "/" bare_exec.



(** * Properties *)

(** ** Strings and paths *)

Lemma str_app_cons (c : ascii) (s t : string) : String c s +:+ t = String c (s +:+ t).
Proof. reflexivity. Qed.

Lemma str_app_nil_l (s : string) : "" +:+ s = s.
Proof. reflexivity. Qed.

Lemma str_app_nil_r (s : string) : s +:+ "" = s.
Proof. induction s as [|c s IH]; [done|]. by rewrite str_app_cons, IH. Qed.

Lemma str_app_assoc (s t u : string) : (s +:+ t) +:+ u = s +:+ t +:+ u.
Proof. induction s as [|c s IH]; [done|]. by rewrite !str_app_cons, IH. Qed.

(** A string without an occurrence of [old] is left as it is. *)
Lemma replace_absent (old new s : string) :
  PyStr.contains old s = false → PyStr.replace old new s = s.
Proof.
  unfold PyStr.replace. induction s as [|c s IH]; [done|].
  cbn [PyStr.contains PyStr.replace_go]. intros [Hp Hs]%orb_false_iff.
  rewrite Hp. f_equal. auto.
Qed.

(** An occurrence of [".iso"] that starts inside [s] lies in [s]: the
    pattern's only dot is its first character. *)
Lemma prefix_iso_app (c : ascii) (s : string) :
  PyStr.startswith ".iso" (String c s +:+ ".iso") = PyStr.startswith ".iso" (String c s).
Proof.
  destruct s as [|c1 [|c2 [|c3 s]]]; rewrite ?str_app_cons, ?str_app_nil_l;
    cbn -[Ascii.eqb]; [| | |done];
    repeat (lazymatch goal with
            | |- context [Ascii.eqb ?a ?b] =>
                destruct (Ascii.eqb_spec a b); try done; cbn -[Ascii.eqb]
            end).
Qed.

(** A single final [".iso"] is removed, and nothing else. *)
Lemma replace_iso_suffix (stem : string) :
  PyStr.contains ".iso" stem = false →
  PyStr.replace ".iso" "" (stem +:+ ".iso") = stem.
Proof.
  unfold PyStr.replace. induction stem as [|c s IH]; [done|].
  cbn [PyStr.contains]. intros [Hp Hs]%orb_false_iff.
  rewrite str_app_cons. cbn [PyStr.replace_go].
  rewrite <- str_app_cons, prefix_iso_app, Hp. f_equal. auto.
Qed.

(** The base name never starts with a separator. *)
Lemma basename_not_abs (p : string) : PyStr.startswith "/" (PosixPath.basename p) = false.
Proof.
  unfold PosixPath.basename. induction p as [|c p IH]; [done|].
  cbn [PosixPath.rsplit]. destruct (PosixPath.rsplit p) as [[|h0 h] t]; [|done].
  destruct (Ascii.eqb_spec c "/") as [->|Hc]; [done|].
  cbn -[Ascii.eqb]. destruct (Ascii.eqb_spec "/" c); [congruence|done].
Qed.

Lemma join_relative (a b : string) :
  a ≠ "" → PyStr.startswith "/" b = false → PosixPath.join a b = dir_prefix a +:+ b.
Proof.
  intros Ha Hb. unfold PosixPath.join, dir_prefix. rewrite Hb.
  apply String.eqb_neq in Ha. rewrite Ha. cbn.
  destruct (PyStr.endswith "/" a); [done|]. by rewrite str_app_assoc.
Qed.

Lemma prefix_slash_app (s t : string) :
  PyStr.startswith "/" s = false → PyStr.startswith "/" t = false →
  PyStr.startswith "/" (s +:+ t) = false.
Proof. destruct s; [done|]. intros Hs _. rewrite str_app_cons. exact Hs. Qed.

(** ** C1: the artifact paths *)

(** C1, as stated, fails: for a medium without the [.iso] extension the
    code keeps the extension ([/vms/disk.img.qcow2], where the formula
    gives [/vms/disk.qcow2]), and for the root directory as storage
    directory [os.path.join] adds no second separator. *)
Lemma C1_formula_counterexample :
  disk_path "/vms" "/media/disk.img" false = "/vms/disk.img.qcow2"
  ∧ disk_path "/vms" "/media/disk.img" false ≠ spec_disk_path "/vms" "/media/disk.img" false
  ∧ vars_path "/vms" "/media/disk.img" ≠ spec_vars_path "/vms" "/media/disk.img"
  ∧ disk_path "/" "/media/ubuntu.iso" true = "/ubuntu.uefi.qcow2"
  ∧ disk_path "/" "/media/ubuntu.iso" true ≠ spec_disk_path "/" "/media/ubuntu.iso" true.
Proof. vm_compute. repeat split; discriminate. Qed.

(** C1, amended: for a non-empty storage directory and a medium whose base
    name is [stem.iso] or [stem], with no [.iso] inside [stem], the disk
    image is the storage directory, one separator, [stem], [.uefi] under
    UEFI, and [.qcow2]; the firmware variables file is the storage
    directory, one separator, [OVMF_VARS_], [stem] and [.fd].  Both are
    functions of the storage directory, the medium path and the firmware
    mode alone. *)
Theorem C1_artifact_paths (vm_dir iso_path stem : string) (is_uefi : bool) :
  vm_dir ≠ "" →
  PosixPath.basename iso_path = stem +:+ ".iso" ∨ PosixPath.basename iso_path = stem →
  PyStr.contains ".iso" stem = false →
  disk_path vm_dir iso_path is_uefi
    = dir_prefix vm_dir +:+ stem +:+ (if is_uefi then ".uefi" else "") +:+ ".qcow2"
  ∧ vars_path vm_dir iso_path = dir_prefix vm_dir +:+ "OVMF_VARS_" +:+ stem +:+ ".fd".
Proof.
  intros Hdir Hbase Hstem.
  assert (PyStr.replace ".iso" "" (PosixPath.basename iso_path) = stem) as Hrep.
  { destruct Hbase as [-> | ->]; [by apply replace_iso_suffix | by apply replace_absent]. }
  assert (PyStr.startswith "/" stem = false) as Hrel.
  { pose proof (basename_not_abs iso_path) as Hb.
    destruct Hbase as [Heq | Heq]; rewrite Heq in Hb; [|done].
    destruct stem; [done|]. by rewrite str_app_cons in Hb. }
  unfold disk_path, vars_path, disk_name. rewrite Hrep. split.
  - apply join_relative; [done|]. apply prefix_slash_app; [done|]. by destruct is_uefi.
  - rewrite join_relative; done.
Qed.

Lemma C1_artifact_paths_witness :
  disk_path "/vms/ubuntu" "/media/ubuntu-24.04.iso" true
    = "/vms/ubuntu/ubuntu-24.04.uefi.qcow2"
  ∧ vars_path "/vms/ubuntu" "/media/ubuntu-24.04.iso"
    = "/vms/ubuntu/OVMF_VARS_ubuntu-24.04.fd".
Proof.
  apply (C1_artifact_paths "/vms/ubuntu" "/media/ubuntu-24.04.iso" "ubuntu-24.04" true).
  - discriminate.
  - left. reflexivity.
  - reflexivity.
Defined.

(** ** C2: the argument list of the re-launch *)

(** With an absolute medium path, the filter of line 227 takes nothing
    out of the arguments shared by both modes. *)
Lemma startswith_slash (s : string) :
  PyStr.startswith "/" s = true → ∃ rest, s = String "/" rest.
Proof.
  destruct s as [|c rest]; [done|]. cbn [PyStr.startswith].
  destruct (Ascii.eqb_spec "/" c) as [<-|]; [eauto|done].
Qed.

Lemma rerun_install_args (d v iso_path : string) (is_uefi : bool) :
  PyStr.startswith "/" iso_path = true →
  rerun_args (install_args (qemu_args d v is_uefi) iso_path) iso_path
    = run_args (qemu_args d v is_uefi).
Proof.
  intros [rest ->]%startswith_slash.
  destruct is_uefi; vm_compute; by rewrite ?String.eqb_refl.
Qed.

Lemma not_in_qemu_args (d v x : string) (is_uefi : bool) :
  PyStr.startswith "/" x = true ∨ x = "-cdrom" ∨ x = "order=d" ∨ x = "-boot" ∨ x = "order=c" →
  x ∉ qemu_args d v is_uefi.
Proof.
  intros Hx Hin.
  assert (∀ y, y ∈ qemu_args d v is_uefi →
            ∃ c s, y = String c s ∧ c ≠ "/"%char ∧ y ≠ "-cdrom" ∧ y ≠ "order=d"
                   ∧ y ≠ "-boot" ∧ y ≠ "order=c") as Hshape.
  { intros y Hy. unfold qemu_args, base_args, uefi_args in Hy.
    destruct is_uefi;
      repeat (apply elem_of_cons in Hy as [-> | Hy];
              [eexists _, _; split; [reflexivity|]; repeat split; discriminate|]);
      by apply elem_of_nil in Hy. }
  destruct (Hshape x Hin) as (c & s & -> & Hc & H1 & H2 & H3 & H4).
  destruct Hx as [Hx|[?|[?|[?|?]]]]; try done.
  apply startswith_slash in Hx as [rest Hx]. congruence.
Qed.

(** C2: for an install-mode argument list built from an absolute medium
    path (the browser returns absolute paths), the list derived for the
    re-launch is the list run mode builds from the same selections; it
    holds neither [-cdrom] nor the medium path nor [order=d], and it holds
    [-boot] and [order=c] once each, as its last two arguments. *)
Theorem C2_rerun_args_are_run_args (vm_dir iso_path : string) (is_uefi : bool) :
  PyStr.startswith "/" iso_path = true →
  let args := qemu_args (disk_path vm_dir iso_path is_uefi) (vars_path vm_dir iso_path) is_uefi in
  let new_args := rerun_args (install_args args iso_path) iso_path in
  new_args = run_args args
  ∧ ("-cdrom" ∉ new_args) ∧ (iso_path ∉ new_args) ∧ ("order=d" ∉ new_args)
  ∧ ∃ kept, new_args = kept ++ ["-boot"; "order=c"] ∧ ("-boot" ∉ kept) ∧ ("order=c" ∉ kept).
Proof.
  intros Habs args new_args.
  assert (new_args = run_args args) as Heq by by apply rerun_install_args.
  assert (∀ x, PyStr.startswith "/" x = true ∨ x = "-cdrom" ∨ x = "order=d" →
               (x ∉ run_args args)) as Hout.
  { intros x Hx. unfold run_args. rewrite elem_of_app. intros [Hin|Hin].
    - revert Hin. apply not_in_qemu_args. destruct Hx as [?|[?|?]]; auto.
    - assert (x = "-boot" ∨ x = "order=c") as Hx'.
      { apply elem_of_cons in Hin as [?|Hin]; [by left|].
        apply elem_of_cons in Hin as [?|Hin]; [by right|].
        by apply elem_of_nil in Hin. }
      destruct Hx as [Hx|[Hx|Hx]], Hx' as [Hx'|Hx']; subst; done. }
  rewrite Heq. repeat split; try (apply Hout; auto).
  exists args. repeat split; apply not_in_qemu_args; auto.
Qed.

Lemma C2_rerun_args_are_run_args_witness :
  let args := qemu_args (disk_path "/vms" "/media/ubuntu.iso" true)
                (vars_path "/vms" "/media/ubuntu.iso") true in
  rerun_args (install_args args "/media/ubuntu.iso") "/media/ubuntu.iso" = run_args args.
Proof.
  intros args.
  exact (proj1 (C2_rerun_args_are_run_args "/vms" "/media/ubuntu.iso" true eq_refl)).
Defined.

(** ** C6: the order of the rows *)

(** C6: the rows of every menu of the browser are, in this order: the row
    tagged [.] exactly in directory-select mode, the row tagged [..], one
    row per directory of the listing, tagged with the name and a separator,
    the names in lexicographic order, and one row per regular file of the
    listing, tagged with the name, in lexicographic order. *)
Theorem C6_choices_order (fs : gmap string node) (current_path : string)
    (select_dir : bool) (items : list string) :
  ∃ dirs files : list string,
    choices fs current_path select_dir items
      = (if select_dir
         then [(".", "--> SELECT THIS DIRECTORY: " +:+ current_path +:+ " <--")]
         else [])
          ++ [("..", "../ (Go Up)")]
          ++ map (fun d => (d +:+ "/", "(Dir)")) dirs
          ++ map (fun f => (f, "(File)")) files
    ∧ StronglySorted String.le dirs
    ∧ dirs ≡ₚ List.filter (fun d => Fs.isdir fs (PosixPath.join current_path d)) items
    ∧ StronglySorted String.le files
    ∧ files ≡ₚ List.filter (fun f => Fs.isfile fs (PosixPath.join current_path f)) items.
Proof.
  eexists _, _. split; [reflexivity|].
  repeat split;
    first [ apply (StronglySorted_merge_sort String.le)
          | apply (merge_sort_Permutation String.le) ].
Qed.

(** The markers come first whatever the listing holds. *)
Lemma choices_tags_head (fs : gmap string node) (current_path : string) (items : list string) :
  (∃ rest, (choices fs current_path true items).*1 = "." :: ".." :: rest)
  ∧ (∃ rest, (choices fs current_path false items).*1 = ".." :: rest).
Proof. split; eexists; reflexivity. Qed.

(** ** C7: a listing that is refused *)

(** C7: when the listing of the current directory is refused, the browser
    shows the notice, waits for it to be acknowledged, and goes on from the
    parent directory with the answers that follow; the refusal itself ends
    the loop neither with a result nor with an exception. *)
Theorem C7_permission_denied_steps_up (fs : gmap string node) (select_dir : bool)
    (title current_path : string) (r : reply) (rs : list reply) :
  Fs.listdir fs current_path = LsDenied →
  browse_loop fs select_dir title current_path (r :: rs)
    = (let '(res, rest, evs) :=
         browse_loop fs select_dir title (PosixPath.dirname current_path) rs in
       (res, rest, EDialog (denied_notice current_path) r :: evs))
  ∧ browse_loop fs select_dir title current_path [] = (Blocked, [], []).
Proof. intros Hls. cbn [browse_loop]. by rewrite Hls. Qed.

Lemma C7_permission_denied_steps_up_witness :
  browse_loop demo_fs false "SELECT ISO FILE" "/home/alexia/secret"
    [Accept ""; Accept "ubuntu.iso"]
  = (let '(res, rest, evs) :=
       browse_loop demo_fs false "SELECT ISO FILE" "/home/alexia" [Accept "ubuntu.iso"] in
     (res, rest, EDialog (denied_notice "/home/alexia/secret") (Accept "") :: evs)).
Proof.
  refine (proj1 (C7_permission_denied_steps_up demo_fs false "SELECT ISO FILE"
                   "/home/alexia/secret" (Accept "") [Accept "ubuntu.iso"] _)).
  vm_compute. reflexivity.
Defined.

Example browse_after_refusal :
  (browse_loop demo_fs false "SELECT ISO FILE" "/home/alexia/secret"
     [Cancel; Accept "ubuntu.iso"]).1
  = (Ret (Some "/home/alexia/ubuntu.iso"), []).
Proof. vm_compute. reflexivity. Qed.

(** ** C9: cancelled prompts *)

(** C9: a cancelled renderer makes the four selecting operations return
    [None] and the confirmation return [False], each as an ordinary
    result; the cancelled firmware prompt therefore leads on to the mode
    menu with BIOS chosen. *)
Theorem C9_cancel_is_a_value (env : os_env) (f : gmap string node) (rs : list reply)
    (l : list event) (title prompt text yes_label no_label iso_path vm_dir : string)
    (rows : list (string * string)) (height width : nat) :
  dialog_input title prompt text (World f (Cancel :: rs) l)
    = (Ret None, World f rs (l ++ [EDialog (InputBox title prompt text) Cancel]))
  ∧ dialog_fselect title text (World f (Cancel :: rs) l)
    = (Ret None, World f rs (l ++ [EDialog (FSelect title text) Cancel]))
  ∧ dialog_dselect title text (World f (Cancel :: rs) l)
    = (Ret None, World f rs (l ++ [EDialog (DSelect title text) Cancel]))
  ∧ dialog_menu title prompt rows height width (World f (Cancel :: rs) l)
    = (Ret None, World f rs (l ++ [EDialog (Menu title prompt rows height width) Cancel]))
  ∧ dialog_yesno title prompt yes_label no_label (World f (Cancel :: rs) l)
    = (Ret false, World f rs (l ++ [EDialog (YesNo title prompt yes_label no_label) Cancel]))
  ∧ ∃ shown,
      choose_firmware env iso_path vm_dir (World f (Cancel :: rs) l)
        = choose_mode env iso_path vm_dir false (World f rs (l ++ [EDialog shown Cancel])).
Proof. repeat split. eexists. reflexivity. Qed.

(** ** C5: run mode *)

(** C5: in run mode without a disk image at the derived path the session
    ends with status 1 after the "Run install first" message and nothing
    else: the files are as they were, no answer is taken, no command is
    run and no argument list is shown or launched.  With a disk image, the
    arguments are those built so far followed by [-boot order=c]. *)
Theorem C5_run_mode_needs_disk (env : os_env) (iso_path vm_dir mode : string)
    (is_uefi : bool) (f : gmap string node) (rs : list reply) (l : list event) :
  mode ≠ "install" →
  let d := disk_path vm_dir iso_path is_uefi in
  let args := qemu_args d (vars_path vm_dir iso_path) is_uefi in
  (Fs.exists_ f d = false →
     session env iso_path vm_dir is_uefi mode (World f rs l)
       = (Exit 1, World f rs (l ++ [EPrint ("Disk not found: " +:+ d +:+ ". Run install first.")]))
     ∧ build_invocation env iso_path vm_dir is_uefi mode (World f rs l)
       = (Exit 1, World f rs (l ++ [EPrint ("Disk not found: " +:+ d +:+ ". Run install first.")])))
  ∧ (Fs.exists_ f d = true →
     build_invocation env iso_path vm_dir is_uefi mode (World f rs l)
       = (Ret (args ++ ["-boot"; "order=c"]),
          World f rs (l ++ [EPrint ("Starting RUN mode (" +:+ mode_name is_uefi +:+ ")")]))).
Proof.
  intros Hmode%String.eqb_neq d args.
  unfold session, build_invocation, run_mode, bind, path_exists. rewrite Hmode.
  fold d. cbn [fs]. split; intros ->; cbn; auto.
Qed.

Lemma C5_run_mode_needs_disk_witness :
  session demo_env "/home/alexia/ubuntu.iso" "/home/alexia/vms" true "run"
    (World demo_fs [] [])
  = (Exit 1,
     World demo_fs []
       [EPrint "Disk not found: /home/alexia/vms/ubuntu.uefi.qcow2. Run install first."]).
Proof.
  refine (proj1 (proj1 (C5_run_mode_needs_disk demo_env "/home/alexia/ubuntu.iso"
                          "/home/alexia/vms" "run" true demo_fs [] [] _) _)).
  - discriminate.
  - vm_compute. reflexivity.
Defined.

(** ** C4: install mode *)

(** Lines 13 to 23 on a command that can be started: the command is run,
    a status other than 0 is reported (line 22), and the answer says
    whether the status was 0. *)
Lemma run_command_started (env : os_env) (cmd : list string) (f f' : gmap string node)
    (rs : list reply) (l : list event) (status : nat) :
  exec env cmd f = Some (status, f') →
  run_command env cmd (World f rs l)
    = (Ret (bool_decide (status = 0)),
       World f' rs (l ++ ERun cmd status :: failure_report cmd status)).
Proof.
  intros Hexec.
  unfold run_command, bind, subprocess_run, print, ret, emit. cbn [fs replies log].
  rewrite Hexec. destruct status; cbn [fs replies log failure_report].
  - done.
  - by rewrite <- app_assoc.
Qed.

(** Lines 13 to 23 on a command that cannot be started: [FileNotFoundError]
    is not among the exceptions of line 17 and leaves [run_command]. *)
Lemma run_command_not_started (env : os_env) (cmd : list string) (f : gmap string node)
    (rs : list reply) (l : list event) :
  exec env cmd f = None →
  run_command env cmd (World f rs l) = (Raise FileNotFoundError, World f rs l).
Proof.
  intros Hexec.
  unfold run_command, bind, subprocess_run. cbn [fs replies log].
  by rewrite Hexec.
Qed.

Ltac run_prog :=
  cbv [bind ret print path_exists path_isfile dialog_yesno dialog_menu run_dialog
       sys_exit raise emit fs replies log yes_result os_remove os_makedirs
       shutil_copy fs_update].

Ltac run_command_step :=
  lazymatch goal with
  | |- context [run_command ?env ?c (World ?f ?r ?L)] =>
      let st := fresh "st" in
      let f' := fresh "f'" in
      let Hexec := fresh "Hexec" in
      destruct (exec env c f) as [[st f']|] eqn:Hexec;
      [rewrite (run_command_started env c f f' r L st Hexec)
      |rewrite (run_command_not_started env c f r L Hexec)];
      clear Hexec
  end.










(** ** C8: where the files are changed *)

Ltac innermost_case t :=
  match t with
  | context [match ?x with _ => _ end] =>
      lazymatch x with
      | context [match _ with _ => _ end] => fail
      | _ => destruct x; cbv beta iota zeta
      end
  end.

Ltac finish_tail :=
  cbv beta iota zeta;
  repeat (lazymatch goal with |- ?lhs = _ → _ => innermost_case lhs end);
  intros [= ? ?]; subst; repeat split; intros; by simplify_eq.

(** C8, amended: the argument list is a function of the selections alone
    ([install_args] or [run_args] of the shared arguments), whatever the
    files are; building it leaves the files as they were in run mode and
    when an installation is refused, while in install mode the same code
    removes, creates and copies files before it returns the list. *)
Theorem C8_builder_effects (env : os_env) (iso_path vm_dir mode : string) (is_uefi : bool)
    (w w' : world) (r : result (list string)) :
  build_invocation env iso_path vm_dir is_uefi mode w = (r, w') →
  let q := qemu_args (disk_path vm_dir iso_path is_uefi) (vars_path vm_dir iso_path) is_uefi in
  (∀ args, r = Ret args →
     args = if String.eqb mode "install" then install_args q iso_path else run_args q)
  ∧ (mode ≠ "install" → fs w' = fs w)
  ∧ (r = Exit 1 → fs w' = fs w).
Proof.
  intros Hrun q. unfold build_invocation in Hrun. fold q in Hrun.
  destruct w as [f rs l]. revert Hrun.
  destruct (String.eqb_spec mode "install") as [->|Hmode].
  - unfold install_mode. run_prog.
    destruct (Fs.exists_ f _).
    + destruct rs as [|[out|] rs]; [finish_tail| |finish_tail].
      destruct (Fs.remove f _) as [e|f1]; [finish_tail|].
      run_command_step; finish_tail.
    + run_command_step; finish_tail.
  - unfold run_mode. run_prog. cbv [negb]. finish_tail.
Qed.

Lemma C8_builder_effects_witness :
  let w := World demo_fs [] [] in
  fs (build_invocation demo_env "/home/alexia/ubuntu.iso" "/home/alexia/vms" false "run" w).2
    = fs w.
Proof.
  intros w.
  refine (proj1 (proj2 (C8_builder_effects demo_env "/home/alexia/ubuntu.iso"
                          "/home/alexia/vms" "run" false w _ _ _)) _).
  - apply surjective_pairing.
  - discriminate.
Defined.

(** C8, as stated, fails: the code that derives the argument list is the
    code that changes the files.  Building the arguments of an installation
    over an existing image removes that image and creates a new one before
    any argument list is returned. *)
Lemma C8_builder_mutates_counterexample :
  let w := World demo_fs [Accept ""] [] in
  let d := "/home/alexia/vms/ubuntu.qcow2" in
  let built :=
    build_invocation demo_env "/home/alexia/ubuntu.iso" "/home/alexia/vms" false "install" w in
  built.1 = Ret (install_args (qemu_args d "/home/alexia/vms/OVMF_VARS_ubuntu.fd" false)
                   "/home/alexia/ubuntu.iso")
  ∧ fs w !! d = Some (File "installed system")
  ∧ fs built.2 !! d = Some (File "qcow2 image, 20G")
  ∧ fs built.2 ≠ fs w.
Proof.
  intros w d built.
  assert (fs w !! d = Some (File "installed system")) as Hold by (vm_compute; reflexivity).
  assert (fs built.2 !! d = Some (File "qcow2 image, 20G")) as Hnew
    by (vm_compute; reflexivity).
  split; [vm_compute; reflexivity|]. split; [done|]. split; [done|].
  intros Heq. rewrite Heq, Hold in Hnew. discriminate.
Qed.

(** ** C3: exit statuses *)

Lemma bind_ret_step {A B} (m : M A) (k : A → M B) (w w' : world) (a : A) :
  m w = (Ret a, w') → bind m k w = k a w'.
Proof. intros H. unfold bind. by rewrite H. Qed.

(** The browser leaves the files alone. *)
Lemma browse_path_fs (env : os_env) (start_path title : string) (select_dir : bool)
    (w w' : world) (r : result (option string)) :
  browse_path env start_path select_dir title w = (r, w') → fs w' = fs w.
Proof.
  unfold browse_path. destruct (browse_loop _ _ _ _ _) as [[? ?] ?].
  by intros [= _ <-].
Qed.

Lemma run_dialog_fs (call : dialog_call) (w w' : world) (r : result reply) :
  run_dialog call w = (r, w') → fs w' = fs w.
Proof. unfold run_dialog. destruct (replies w); by intros [= _ <-]. Qed.

Lemma dialog_yesno_eval (title prompt yes_label no_label : string)
    (f : gmap string node) (r : reply) (rs : list reply) (l : list event) :
  dialog_yesno title prompt yes_label no_label (World f (r :: rs) l)
    = (Ret (yes_result r),
       World f rs (l ++ [EDialog (YesNo title prompt yes_label no_label) r])).
Proof. reflexivity. Qed.

Lemma dialog_menu_eval (title prompt : string) (rows : list (string * string))
    (height width : nat) (f : gmap string node) (r : reply) (rs : list reply)
    (l : list event) :
  dialog_menu title prompt rows height width (World f (r :: rs) l)
    = (Ret (text_result r),
       World f rs (l ++ [EDialog (Menu title prompt rows height width) r])).
Proof. reflexivity. Qed.

(** C3: once the dependencies are in place, the session ends with status 0
    when the medium selection or the storage-directory selection is
    cancelled, the files being as the dependency check left them; it ends
    with status 1 when the selected medium is not a regular file, when the
    mode menu is cancelled, and when run mode finds no disk image at the
    derived path. *)
Theorem C3_exit_status (env : os_env) (w w1 : world) :
  check_dependencies env w = (Ret tt, w1) →
  ∀ (iso : option string) (w2 : world),
    browse_path env "/home/alexia/" false "SELECT ISO FILE" w1 = (Ret iso, w2) →
    (PyStr.truthy iso = false → main env w = (Exit 0, w2) ∧ fs w2 = fs w1)
    ∧ (PyStr.truthy iso = true →
       let iso_path := default "" iso in
       (Fs.isfile (fs w2) iso_path = false →
          ∃ w3, main env w = (Exit 1, w3) ∧ fs w3 = fs w1)
       ∧ (Fs.isfile (fs w2) iso_path = true →
          ∀ (dir : option string) (w3 : world),
            browse_path env "/home/alexia/" true "SELECT DIR TO INSTALL VIRTUAL DISK" w2
              = (Ret dir, w3) →
            (PyStr.truthy dir = false → main env w = (Exit 0, w3) ∧ fs w3 = fs w1)
            ∧ (PyStr.truthy dir = true →
               let vm_dir := default "" dir in
               ∀ (f4 : gmap string node) (firmware chosen : reply) (rs : list reply)
                 (l4 : list event),
                 os_makedirs vm_dir w3 = (Ret tt, World f4 (firmware :: chosen :: rs) l4) →
                 let is_uefi := yes_result firmware in
                 let mode := text_result chosen in
                 (PyStr.truthy mode = false →
                    ∃ w5, main env w = (Exit 1, w5) ∧ fs w5 = f4)
                 ∧ (PyStr.truthy mode = true → default "" mode ≠ "install" →
                    Fs.exists_ f4 (disk_path vm_dir iso_path is_uefi) = false →
                    ∃ w5, main env w = (Exit 1, w5) ∧ fs w5 = f4)))).
Proof.
  destruct w1 as [f1 rs1 l1]. intros Hdeps iso [f2 rs2 l2] Hiso.
  assert (main env w = choose_iso env (World f1 rs1 l1)) as ->
    by (unfold main; by rewrite (bind_ret_step _ _ _ _ _ Hdeps)).
  pose proof (browse_path_fs _ _ _ _ _ _ _ Hiso) as Hfs2. cbn [fs] in Hfs2.
  unfold choose_iso. rewrite (bind_ret_step _ _ _ _ _ Hiso).
  split; [by intros ->|]. intros Hiso_ok. rewrite Hiso_ok. cbv zeta. cbn [negb fs].
  set (iso_path := default "" iso).
  rewrite (bind_ret_step (path_isfile iso_path) _ _ _ _ eq_refl). cbn [fs].
  split; intros Hfile; rewrite Hfile; cbn [negb].
  { eexists. split; [reflexivity|]. done. }
  intros dir [f3 rs3 l3] Hdir.
  pose proof (browse_path_fs _ _ _ _ _ _ _ Hdir) as Hfs3. cbn [fs] in Hfs3.
  unfold choose_vm_dir. rewrite (bind_ret_step _ _ _ _ _ Hdir).
  split; [intros ->; split; [done|cbn [fs]; congruence]|].
  intros Hdir_ok. rewrite Hdir_ok. cbn [negb].
  intros f4 firmware chosen rs l4 Hmk.
  set (vm_dir := default "" dir) in *.
  set (is_uefi := yes_result firmware). set (mode := text_result chosen).
  rewrite (bind_ret_step _ _ _ _ _ Hmk).
  unfold choose_firmware, choose_mode.
  rewrite (bind_ret_step _ _ _ _ _ (dialog_yesno_eval _ _ _ _ _ _ _ _)).
  rewrite (bind_ret_step _ _ _ _ _ (dialog_menu_eval _ _ _ _ _ _ _ _ _)).
  fold is_uefi mode.
  split.
  - intros ->. eexists. split; reflexivity.
  - intros Hmode Hrun%String.eqb_neq Hdisk. rewrite Hmode. cbn [negb].
    unfold session, build_invocation, run_mode. rewrite Hrun.
    run_prog. rewrite Hdisk. eexists. split; reflexivity.
Qed.

Lemma C3_exit_status_witness :
  (main demo_env (World demo_fs [Cancel] [])).1 = Exit 0
  ∧ (main demo_env
       (World demo_fs
          [Accept "ubuntu.iso"; Accept "vms/"; Accept "."; Accept ""; Accept "run"] [])).1
    = Exit 1.
Proof.
  split.
  - set (w := World demo_fs [Cancel] []).
    set (w2 := (browse_path demo_env "/home/alexia/" false "SELECT ISO FILE" w).2).
    assert (check_dependencies demo_env w = (Ret tt, w)) as Hdeps
      by (vm_compute; reflexivity).
    assert (browse_path demo_env "/home/alexia/" false "SELECT ISO FILE" w = (Ret None, w2))
      as Hiso by (vm_compute; reflexivity).
    destruct (C3_exit_status demo_env w w Hdeps None w2 Hiso) as [Hcancel _].
    destruct (Hcancel eq_refl) as [-> _]. reflexivity.
  - set (w := World demo_fs
                [Accept "ubuntu.iso"; Accept "vms/"; Accept "."; Accept ""; Accept "run"] []).
    set (w2 := (browse_path demo_env "/home/alexia/" false "SELECT ISO FILE" w).2).
    set (w3 := (browse_path demo_env "/home/alexia/" true
                  "SELECT DIR TO INSTALL VIRTUAL DISK" w2).2).
    assert (check_dependencies demo_env w = (Ret tt, w)) as Hdeps
      by (vm_compute; reflexivity).
    assert (browse_path demo_env "/home/alexia/" false "SELECT ISO FILE" w
            = (Ret (Some "/home/alexia/ubuntu.iso"), w2))
      as Hiso by (vm_compute; reflexivity).
    assert (browse_path demo_env "/home/alexia/" true "SELECT DIR TO INSTALL VIRTUAL DISK" w2
            = (Ret (Some "/home/alexia/vms"), w3))
      as Hdir by (vm_compute; reflexivity).
    assert (os_makedirs "/home/alexia/vms" w3
            = (Ret tt, World demo_fs [Accept ""; Accept "run"] (log w3)))
      as Hmk by (vm_compute; reflexivity).
    destruct (C3_exit_status demo_env w w Hdeps _ w2 Hiso) as [_ Hchosen].
    destruct (Hchosen eq_refl) as [_ Hfile].
    destruct (Hfile ltac:(vm_compute; reflexivity) _ w3 Hdir) as [_ Hvm].
    destruct (Hvm eq_refl _ _ _ _ _ Hmk) as [_ Hrun].
    destruct Hrun as (w5 & -> & _); [reflexivity|discriminate|vm_compute; reflexivity|].
    reflexivity.
Defined.

(** ** C10: what the browser lists and returns *)

Lemma basename_no_slash (p : string) : PyStr.contains "/" (PosixPath.basename p) = false.
Proof.
  unfold PosixPath.basename. induction p as [|c p IH]; [done|].
  cbn [PosixPath.rsplit]. destruct (PosixPath.rsplit p) as [[|h0 h] t]; [|done].
  cbn [snd] in IH. destruct (Ascii.eqb_spec c "/") as [->|Hc]; [done|].
  cbn [snd PyStr.contains PyStr.startswith]. rewrite IH.
  destruct (Ascii.eqb_spec "/" c); [congruence|done].
Qed.

Lemma endswith_contains (s : string) :
  PyStr.endswith "/" s = true → PyStr.contains "/" s = true.
Proof.
  induction s as [|c s IH]; [done|]. cbn [PyStr.endswith PyStr.contains].
  intros [Heq|Hs]%orb_true_iff.
  - apply String.eqb_eq in Heq as [= -> ->]. done.
  - rewrite (IH Hs). apply orb_true_r.
Qed.

Lemma endswith_sep (d : string) : PyStr.endswith "/" (d +:+ "/") = true.
Proof.
  induction d as [|c d IH]; [done|].
  rewrite str_app_cons. cbn [PyStr.endswith]. rewrite IH. apply orb_true_r.
Qed.

(** The names [os.listdir] gives are plain: neither [.] nor [..], and no
    separator in them. *)
Lemma listdir_plain_names (fs : gmap string node) (p x : string) (items : list string) :
  Fs.listdir fs p = LsOk items → x ∈ items →
  x ≠ "." ∧ x ≠ ".." ∧ PyStr.endswith "/" x = false.
Proof.
  unfold Fs.listdir. destruct (fs !! p) as [[[]| | |]|]; try done.
  intros [= <-] (kv & Hkv & Hname)%list_elem_of_omap.
  unfold Fs.child_name in Hname.
  destruct (negb _ && _) eqn:Hok; [|done]. injection Hname as <-.
  apply andb_true_iff in Hok as [Hdots _].
  repeat split.
  - intros Heq. by rewrite Heq in Hdots.
  - intros Heq. by rewrite Heq in Hdots.
  - destruct (PyStr.endswith "/" _) eqn:Hend; [|done].
    apply endswith_contains in Hend. by rewrite basename_no_slash in Hend.
Qed.



(** C10 at a directory that holds the FIFO [pipe] and the regular file
    [pipe ] (with a final space): the FIFO has no row in the menu, the file
    has one, and on the answer [pipe ] the browser, which strips the
    answer, returns the path of the FIFO. *)
Theorem C10_stripped_tag_names_unlisted_entry :
  let rows := choices demo_fs "/home/alexia" false (Fs.children demo_fs "/home/alexia") in
  Fs.listdir demo_fs "/home/alexia" = LsOk (Fs.children demo_fs "/home/alexia")
  ∧ ("pipe" ∉ rows.*1) ∧ ("pipe " ∈ rows.*1)
  ∧ Fs.isfile demo_fs "/home/alexia/pipe" = false
  ∧ Fs.isdir demo_fs "/home/alexia/pipe" = false
  ∧ (browse_loop demo_fs false "SELECT ISO FILE" "/home/alexia" [Accept "pipe "]).1
    = (Ret (Some "/home/alexia/pipe"), []).
Proof.
  intros rows.
  assert (rows.*1 = [".."; "secret/"; "vms/"; "pipe "; "ubuntu.iso"]) as ->
    by (vm_compute; reflexivity).
  repeat split; try (vm_compute; reflexivity).
  - intros Hin. repeat (apply elem_of_cons in Hin as [Hin|Hin]; [discriminate|]).
    by apply elem_of_nil in Hin.
  - set_solver.
Qed.

(** * Further properties of the code *)

(** ** The artifact names (lines 166 to 168) *)

Lemma contains_startswith (sub s : string) :
  PyStr.contains sub s = false → PyStr.startswith sub s = false.
Proof. destruct s; cbn [PyStr.contains]; by intros [? _]%orb_false_iff. Qed.

(** Removing occurrences of a pattern brings no separator into a name. *)
Lemma replace_go_no_slash (old : string) (k : nat) (s : string) :
  PyStr.contains "/" s = false → PyStr.contains "/" (PyStr.replace_go old "" k s) = false.
Proof.
  revert k. induction s as [|c s IH]; intros k; [done|].
  cbn [PyStr.contains]. intros [Hc Hs]%orb_false_iff.
  cbn [PyStr.replace_go]. destruct k as [|k]; [|by apply IH].
  destruct (PyStr.startswith old (String c s)).
  - rewrite str_app_nil_l. by apply IH.
  - cbn [PyStr.contains]. rewrite IH by done.
    cbn [PyStr.startswith] in *. by rewrite Hc.
Qed.

Lemma contains_slash_app (s t : string) :
  PyStr.contains "/" s = false → PyStr.contains "/" t = false →
  PyStr.contains "/" (s +:+ t) = false.
Proof.
  intros Hs Ht. induction s as [|c s IH]; [done|].
  rewrite str_app_cons. cbn [PyStr.contains] in *.
  apply orb_false_iff in Hs as [Hc Hs]. rewrite IH by done.
  cbn [PyStr.startswith] in *. by rewrite Hc.
Qed.

Lemma stem_no_slash (iso_path : string) :
  PyStr.contains "/" (PyStr.replace ".iso" "" (PosixPath.basename iso_path)) = false.
Proof. apply replace_go_no_slash, basename_no_slash. Qed.

Lemma disk_name_no_slash (iso_path : string) (is_uefi : bool) :
  PyStr.contains "/" (disk_name iso_path is_uefi) = false.
Proof.
  unfold disk_name. apply contains_slash_app; [apply stem_no_slash|]. by destruct is_uefi.
Qed.

(** For every medium path, whatever its name, both artifacts lie directly
    in the storage directory: their paths are the directory, one
    separator, and a name without a separator. *)
Theorem artifacts_inside_storage_dir (vm_dir iso_path : string) (is_uefi : bool) :
  vm_dir ≠ "" →
  ∃ disk vars,
    disk_path vm_dir iso_path is_uefi = dir_prefix vm_dir +:+ disk
    ∧ vars_path vm_dir iso_path = dir_prefix vm_dir +:+ vars
    ∧ PyStr.contains "/" disk = false ∧ PyStr.contains "/" vars = false.
Proof.
  intros Hdir. eexists _, _. unfold disk_path, vars_path.
  assert (PyStr.contains "/"
            ("OVMF_VARS_" +:+ PyStr.replace ".iso" "" (PosixPath.basename iso_path) +:+ ".fd")
          = false) as Hvars.
  { apply (contains_slash_app "OVMF_VARS_"); [done|].
    apply contains_slash_app; [apply stem_no_slash|done]. }
  pose proof (disk_name_no_slash iso_path is_uefi) as Hdisk.
  split; [|split]; [apply join_relative; [done|by apply contains_startswith]..|done].
Qed.

Lemma artifacts_inside_storage_dir_witness :
  ∃ disk vars,
    disk_path "/vms" "/media/win.isolated.iso" true = dir_prefix "/vms" +:+ disk
    ∧ vars_path "/vms" "/media/win.isolated.iso" = dir_prefix "/vms" +:+ vars
    ∧ PyStr.contains "/" disk = false ∧ PyStr.contains "/" vars = false.
Proof. apply (artifacts_inside_storage_dir "/vms" "/media/win.isolated.iso" true). discriminate. Defined.

(** [os.path.join] with a fixed directory tells relative names apart. *)
Lemma join_inj (a b1 b2 : string) :
  PyStr.startswith "/" b1 = false → PyStr.startswith "/" b2 = false →
  PosixPath.join a b1 = PosixPath.join a b2 → b1 = b2.
Proof.
  unfold PosixPath.join. intros -> ->.
  destruct (_ || _); intros Heq; repeat apply (inj (String.app _)) in Heq; done.
Qed.

Lemma length_app (s t : string) : String.length (s +:+ t) = String.length s + String.length t.
Proof. induction s as [|c s IH]; [done|]. rewrite str_app_cons. cbn. by rewrite IH. Qed.

(** The disk image and the firmware variables file never have the same
    path, and the BIOS image and the UEFI image of one medium in one
    directory never have the same path either. *)
Theorem artifact_paths_distinct (vm_dir iso_path : string) (is_uefi : bool) :
  disk_path vm_dir iso_path is_uefi ≠ vars_path vm_dir iso_path
  ∧ disk_path vm_dir iso_path true ≠ disk_path vm_dir iso_path false.
Proof.
  pose proof (stem_no_slash iso_path) as Hstem.
  set (stem := PyStr.replace ".iso" "" (PosixPath.basename iso_path)) in *.
  split; unfold disk_path, vars_path, disk_name; fold stem; intros Heq;
    apply join_inj in Heq;
    try (apply contains_startswith, contains_slash_app; by try destruct is_uefi);
    try (by apply contains_startswith, (contains_slash_app "OVMF_VARS_"),
                  contains_slash_app).
  - apply (f_equal String.length) in Heq. rewrite !length_app in Heq.
    destruct is_uefi; cbn in Heq; lia.
  - apply (inj (String.app _)) in Heq. discriminate.
Qed.

(** ** What a prompt hands on (lines 57, 64, 71, 83) *)

Lemma lstrip_head (s : string) (c : ascii) (r : string) :
  PyStr.lstrip s = String c r → PyStr.isspace c = false.
Proof.
  induction s as [|a s IH]; [done|]. cbn [PyStr.lstrip].
  destruct (PyStr.isspace a) eqn:Ha; [done|]. by intros [= <- _].
Qed.

Lemma rstrip_cons (c : ascii) (s : string) :
  PyStr.rstrip (String c s)
  = match PyStr.rstrip s with
    | "" => if PyStr.isspace c then "" else String c ""
    | r => String c r
    end.
Proof. reflexivity. Qed.

Lemma rstrip_idem (s : string) : PyStr.rstrip (PyStr.rstrip s) = PyStr.rstrip s.
Proof.
  induction s as [|c s IH]; [done|]. rewrite rstrip_cons.
  destruct (PyStr.rstrip s) as [|a r] eqn:Hr.
  - destruct (PyStr.isspace c) eqn:Hc; [done|]. by rewrite rstrip_cons, Hc.
  - by rewrite rstrip_cons, IH.
Qed.

Lemma lstrip_rstrip (t : string) :
  PyStr.lstrip t = t → PyStr.lstrip (PyStr.rstrip t) = PyStr.rstrip t.
Proof.
  destruct t as [|c t]; [done|]. intros Ht.
  pose proof (lstrip_head _ _ _ Ht) as Hc. rewrite rstrip_cons.
  destruct (PyStr.rstrip t); rewrite ?Hc; cbn [PyStr.lstrip]; by rewrite Hc.
Qed.

Lemma lstrip_idem (s : string) : PyStr.lstrip (PyStr.lstrip s) = PyStr.lstrip s.
Proof.
  induction s as [|c s IH]; [done|]. cbn [PyStr.lstrip].
  destruct (PyStr.isspace c) eqn:Hc; [done|]. cbn [PyStr.lstrip]. by rewrite Hc.
Qed.

(** A menu never hands on a tag with white space at an end: what it
    returns is left as it is by [lstrip], [rstrip] and [strip], so a row
    whose tag begins or ends with white space cannot come back as the
    selection. *)
Theorem dialog_menu_result_is_stripped (title prompt : string) (rows : list (string * string))
    (height width : nat) (w w' : world) (tag : string) :
  dialog_menu title prompt rows height width w = (Ret (Some tag), w') →
  PyStr.lstrip tag = tag ∧ PyStr.rstrip tag = tag ∧ PyStr.strip tag = tag.
Proof.
  unfold dialog_menu, run_dialog, bind, ret.
  destruct (replies w) as [|[out|] rs]; [done| |done]. intros [= <- _].
  cbn [text_result]. unfold PyStr.strip.
  assert (PyStr.lstrip (PyStr.rstrip (PyStr.lstrip out)) = PyStr.rstrip (PyStr.lstrip out))
    as Hl by apply lstrip_rstrip, lstrip_idem.
  rewrite Hl, !rstrip_idem. done.
Qed.

Lemma dialog_menu_result_is_stripped_witness :
  PyStr.strip "pipe" = "pipe".
Proof.
  refine (proj2 (proj2 (dialog_menu_result_is_stripped "t" "p" [("pipe ", "(File)")] 20 75
                          (World demo_fs [Accept "pipe "] []) _ "pipe" _))).
  reflexivity.
Defined.

(** ** The browser loop (lines 96 to 138) *)

Lemma on_selection_select_dir (current_path p : string) (selection : option string) :
  on_selection current_path true selection = Return (Some p) →
  selection = Some "." ∧ p = current_path.
Proof.
  destruct selection as [s|]; [|done]. cbn [on_selection].
  destruct (String.eqb_spec s ".") as [->|_]; [by intros [= ->]|].
  by destruct (String.eqb s ".."), (PyStr.endswith "/" s).
Qed.

Lemma browse_loop_dir_result (fs : gmap string node) (title : string)
    (rs : list reply) :
  ∀ (current_path p : string) (rest : list reply) (evs : list event),
    browse_loop fs true title current_path rs = (Ret (Some p), rest, evs) →
    (∃ items, Fs.listdir fs p = LsOk items) ∧ Fs.isdir fs p = true.
Proof.
  assert (∀ p items, Fs.listdir fs p = LsOk items → Fs.isdir fs p = true) as Hdir.
  { intros p items. unfold Fs.listdir, Fs.isdir. by destruct (fs !! p) as [[[]| | |]|]. }
  induction rs as [|r rs IH]; intros cur p rest evs; cbn [browse_loop];
    destruct (Fs.listdir fs cur) as [items| |e] eqn:Hls; try done.
  - destruct (on_selection cur true (text_result r)) as [out|next] eqn:Hsel.
    + intros [= -> <- <-]. apply on_selection_select_dir in Hsel as [_ ->]. eauto.
    + destruct (browse_loop fs true title next rs) as [[res' rest'] evs'] eqn:Hloop.
      intros [= -> <- <-]. eauto.
  - destruct (browse_loop fs true title _ rs) as [[res' rest'] evs'] eqn:Hloop.
    intros [= -> <- <-]. eauto.
Qed.

(** In directory-select mode the browser returns nothing but a directory
    it has just listed, whatever the answers were. *)
Theorem browse_loop_returns_listed_dir (fs : gmap string node) (title : string)
    (rs : list reply) (current_path p : string) (rest : list reply) (evs : list event) :
  browse_loop fs true title current_path rs = (Ret (Some p), rest, evs) →
  (∃ items, Fs.listdir fs p = LsOk items) ∧ Fs.isdir fs p = true.
Proof. apply browse_loop_dir_result. Qed.

Lemma browse_loop_returns_listed_dir_witness :
  Fs.isdir demo_fs "/home/alexia/vms" = true.
Proof.
  refine (proj2 (browse_loop_returns_listed_dir demo_fs "t"
                   [Accept "ubuntu.iso"; Accept "vms/"; Accept "."]
                   "/home/alexia" "/home/alexia/vms" [] _ _)).
  vm_compute. reflexivity.
Defined.

Lemma makedirs_existing (fs : gmap string node) (p : string) :
  Fs.isdir fs p = true → Fs.makedirs fs p = inr fs.
Proof.
  intros Hdir. unfold Fs.makedirs.
  destruct (String.length p); cbn [Fs.makedirs_go]; by rewrite Hdir.
Qed.

(** Lines 152 to 155 together: the directory the browser returns exists,
    so the [os.makedirs] that follows creates nothing, and selecting the
    storage directory leaves the files as they were. *)
Theorem choose_vm_dir_changes_nothing (env : os_env) (iso_path : string) (w w' : world)
    (vm_dir : option string) :
  browse_path env "/home/alexia/" true "SELECT DIR TO INSTALL VIRTUAL DISK" w
    = (Ret vm_dir, w') →
  PyStr.truthy vm_dir = true →
  fs w' = fs w
  ∧ os_makedirs (default "" vm_dir) w' = (Ret tt, w')
  ∧ choose_vm_dir env iso_path w = choose_firmware env iso_path (default "" vm_dir) w'.
Proof.
  intros Hbrowse Hdir.
  assert (os_makedirs (default "" vm_dir) w' = (Ret tt, w')) as Hmk.
  { destruct vm_dir as [p|]; [|done]. change (default "" (Some p)) with p.
    unfold browse_path in Hbrowse.
    destruct (browse_loop _ _ _ _ _) as [[res rest] evs] eqn:Hloop.
    injection Hbrowse as -> <-.
    apply browse_loop_dir_result in Hloop as [_ Hp].
    unfold os_makedirs, fs_update. cbv beta. cbn [fs replies log].
    by rewrite (makedirs_existing _ _ Hp). }
  split; [by eapply browse_path_fs|]. split; [done|].
  unfold choose_vm_dir. rewrite (bind_ret_step _ _ _ _ _ Hbrowse), Hdir. cbn [negb].
  by rewrite (bind_ret_step _ _ _ _ _ Hmk).
Qed.

Lemma choose_vm_dir_changes_nothing_witness :
  let w := World demo_fs [Accept "vms/"; Accept "."; Cancel; Cancel] [] in
  let w' :=
    (browse_path demo_env "/home/alexia/" true "SELECT DIR TO INSTALL VIRTUAL DISK" w).2 in
  fs w' = fs w.
Proof.
  intros w w'.
  refine (proj1 (choose_vm_dir_changes_nothing demo_env "/home/alexia/ubuntu.iso" w w'
                   (Some "/home/alexia/vms") _ _)).
  - vm_compute. reflexivity.
  - reflexivity.
Defined.

(** In directory-select mode an answer that names an entry of the listing
    itself (a file row) changes nothing: the same directory is shown
    again with the answers that follow. *)
Theorem file_row_ignored_in_dir_mode (fs : gmap string node) (title current_path f : string)
    (items : list string) (rs : list reply) :
  Fs.listdir fs current_path = LsOk items → f ∈ items → PyStr.strip f = f →
  browse_loop fs true title current_path (Accept f :: rs)
    = (let '(res, rest, evs) := browse_loop fs true title current_path rs in
       (res, rest, EDialog (browse_menu fs current_path true title items) (Accept f) :: evs)).
Proof.
  intros Hls Hin Hstrip. cbn [browse_loop]. rewrite Hls. cbn [text_result on_selection].
  rewrite Hstrip.
  destruct (listdir_plain_names _ _ _ _ Hls Hin) as (H1%String.eqb_neq & H2%String.eqb_neq & H3).
  by rewrite H1, H2, H3.
Qed.

Lemma file_row_ignored_in_dir_mode_witness :
  (browse_loop demo_fs true "t" "/home/alexia" [Accept "ubuntu.iso"; Accept "."]).1
  = (Ret (Some "/home/alexia"), []).
Proof.
  rewrite (file_row_ignored_in_dir_mode demo_fs "t" "/home/alexia" "ubuntu.iso"
             (Fs.children demo_fs "/home/alexia") [Accept "."]).
  - vm_compute. reflexivity.
  - vm_compute. reflexivity.
  - apply list_elem_of_In. vm_compute. auto.
  - reflexivity.
Defined.

Lemma rsplit_all_slashes (p : string) :
  PosixPath.all_slashes p = true → PosixPath.rsplit p = (p, "").
Proof.
  induction p as [|c p IH]; [done|]. cbn [PosixPath.all_slashes PosixPath.rsplit].
  intros [Hc%Ascii.eqb_eq Hp]%andb_true_iff. subst c. rewrite (IH Hp). by destruct p.
Qed.

(** The parent of the root is the root. *)
Lemma dirname_root (p : string) : PosixPath.all_slashes p = true → PosixPath.dirname p = p.
Proof.
  intros Hp. unfold PosixPath.dirname. rewrite (rsplit_all_slashes _ Hp). cbn [fst].
  by rewrite Hp.
Qed.

(** At the root, "go up" shows the root again: the loop goes on with the
    answers that follow and the same directory. *)
Theorem go_up_at_root_stays (fs : gmap string node) (select_dir : bool)
    (title root : string) (items : list string) (rs : list reply) :
  PosixPath.all_slashes root = true → Fs.listdir fs root = LsOk items →
  browse_loop fs select_dir title root (Accept ".." :: rs)
    = (let '(res, rest, evs) := browse_loop fs select_dir title root rs in
       (res, rest,
        EDialog (browse_menu fs root select_dir title items) (Accept "..") :: evs)).
Proof.
  intros Hroot Hls. cbn [browse_loop]. rewrite Hls.
  change (on_selection root select_dir (text_result (Accept "..")))
    with (Goto (PosixPath.dirname root)).
  by rewrite (dirname_root _ Hroot).
Qed.

Lemma go_up_at_root_stays_witness :
  (browse_loop demo_fs true "t" "/" [Accept ".."; Accept ".."; Accept "."]).1
  = (Ret (Some "/"), []).
Proof.
  rewrite !(go_up_at_root_stays demo_fs true "t" "/" (Fs.children demo_fs "/"));
    vm_compute; reflexivity.
Defined.

(** A root directory whose listing is refused is never left: every answer
    acknowledges one more notice, and the browser ends waiting. *)
Theorem refused_root_is_never_left (fs : gmap string node) (select_dir : bool)
    (title root : string) (rs : list reply) :
  PosixPath.all_slashes root = true → Fs.listdir fs root = LsDenied →
  browse_loop fs select_dir title root rs
    = (Blocked, [], map (EDialog (denied_notice root)) rs).
Proof.
  intros Hroot Hls. induction rs as [|r rs IH]; cbn [browse_loop]; rewrite Hls; [done|].
  by rewrite (dirname_root _ Hroot), IH.
Qed.

Lemma refused_root_is_never_left_witness :
  browse_loop {["/" := Dir false]} true "t" "/" [Accept "."; Cancel; Accept ".."]
  = (Blocked, [],
     map (EDialog (denied_notice "/")) [Accept "."; Cancel; Accept ".."]).
Proof.
  apply (refused_root_is_never_left {["/" := Dir false]} true "t" "/"); reflexivity.
Defined.

(** ** The dependency check (lines 25 to 50) *)

Lemma check_dependencies_unfold (env : os_env) (w : world) :
  check_dependencies env w
  = match missing_deps env (fs w) with
    | [] => (Ret tt, w)
    | missing =>
        (print ("Missing dependencies: " +:+ PyStr.join ", " missing);;
         choice ← input "Do you want to install them using apt? (y/n): ";
         if String.eqb (PyStr.lower choice) "y"
         then
           let packages := remove_dups (map package_of missing) in
           print ("Installing: " +:+ repr_list packages);;
           run_command env ["sudo"; "apt"; "update"];;
           run_command env (["sudo"; "apt"; "install"; "-y"] ++ packages);;
           ret tt
         else
           print "Cannot proceed without dependencies.";;
           sys_exit 1) w
    end.
Proof.
  unfold check_dependencies, missing_deps. cbv zeta.
  by destruct (if Fs.exists_ (fs w) OVMF_CODE then _ else _).
Qed.

Lemma missing_deps_known (env : os_env) (f : gmap string node) (m : string) :
  m ∈ missing_deps env f → m ∈ ["qemu-system-x86_64"; "qemu-img"; "dialog"; "ovmf"].
Proof.
  unfold missing_deps. intros Hm.
  assert (m ∈ List.filter (λ d, negb (which env d)) ["qemu-system-x86_64"; "qemu-img"; "dialog"]
          ∨ m = "ovmf") as [Hin| ->].
  { destruct (Fs.exists_ f OVMF_CODE); [by left|].
    apply elem_of_app in Hm as [?|Hm]; [by left|]. right.
    by apply list_elem_of_singleton in Hm. }
  - apply list_elem_of_In, filter_In in Hin as [Hin _]. apply list_elem_of_In in Hin.
    rewrite !elem_of_cons in *. tauto.
  - rewrite !elem_of_cons. tauto.
Qed.

(** ** Running a command (lines 13 to 23) *)

Lemma failure_report_no_cmd (cmd : list string) (status : nat) :
  omap event_cmd (failure_report cmd status) = [].
Proof. by destruct status. Qed.

(** [run_command] on a command that can be started returns whatever the
    status: [True] exactly for status 0, with the files as the command left
    them, no answer taken, and a report printed exactly when the status is
    not 0.  A command that cannot be started is not caught by line 17:
    [FileNotFoundError] leaves [run_command] with nothing run, printed or
    changed. *)
Theorem run_command_outcome (env : os_env) (cmd : list string) (w : world) :
  (∀ (status : nat) (f' : gmap string node),
     exec env cmd (fs w) = Some (status, f') →
     ∃ (ok : bool) (report : list event),
       run_command env cmd w
         = (Ret ok, World f' (replies w) (log w ++ ERun cmd status :: report))
       ∧ (ok = true ↔ status = 0)
       ∧ (report = [] ↔ status = 0)
       ∧ Forall (λ ev, ∃ line, ev = EPrint line) report)
  ∧ (exec env cmd (fs w) = None →
     run_command env cmd w = (Raise FileNotFoundError, w)).
Proof.
  destruct w as [f rs l]. cbn [fs replies log]. split.
  - intros status f' Hexec. eexists _, _.
    split; [apply (run_command_started _ _ _ _ _ _ _ Hexec)|].
    destruct status; cbn [failure_report].
    + repeat split; try done; by rewrite bool_decide_eq_true.
    + repeat split; try done; try (by rewrite bool_decide_eq_true).
      repeat constructor. eauto.
  - apply run_command_not_started.
Qed.

Lemma run_command_outcome_witness :
  (∃ report,
     run_command bare_env ["sudo"; "apt"; "update"] (World demo_fs [Cancel] [])
       = (Ret false,
          World demo_fs [Cancel] (ERun ["sudo"; "apt"; "update"] 1 :: report))
     ∧ report ≠ [])
  ∧ run_command bare_env ["qemu-img"; "create"; "-f"; "qcow2"; "/disk.qcow2"; "20G"]
      (World demo_fs [Cancel] [])
    = (Raise FileNotFoundError, World demo_fs [Cancel] []).
Proof.
  split.
  - destruct (proj1 (run_command_outcome bare_env ["sudo"; "apt"; "update"]
                       (World demo_fs [Cancel] [])) 1 demo_fs eq_refl)
      as (ok & report & Hrun & Hok & Hreport & _).
    exists report. destruct ok.
    + destruct Hok as [Hok _]. discriminate (Hok eq_refl).
    + split; [exact Hrun|]. intros Hnil. destruct Hreport as [Hreport _].
      discriminate (Hreport Hnil).
  - apply (proj2 (run_command_outcome bare_env _ (World demo_fs [Cancel] []))).
    reflexivity.
Defined.

(** ** The dependency check, continued *)

(** With the three tools on the path and the firmware in place the check
    returns at once: nothing is printed, asked, run or changed. *)
Theorem check_dependencies_nothing_missing (env : os_env) (w : world) :
  which env "qemu-system-x86_64" = true → which env "qemu-img" = true →
  which env "dialog" = true → Fs.exists_ (fs w) OVMF_CODE = true →
  check_dependencies env w = (Ret tt, w).
Proof.
  intros H1 H2 H3 H4. rewrite check_dependencies_unfold. unfold missing_deps.
  cbn [List.filter]. by rewrite H1, H2, H3, H4.
Qed.

Lemma check_dependencies_nothing_missing_witness :
  check_dependencies demo_env (World demo_fs [Cancel] []) = (Ret tt, World demo_fs [Cancel] []).
Proof.
  apply check_dependencies_nothing_missing; vm_compute; reflexivity.
Defined.

(** With something missing, any answer other than [y] or [Y] ends the
    program with status 1 after the final message; no command has been
    run and the files are as they were.  At the end of input the prompt
    raises [EOFError]. *)
Theorem check_dependencies_declined (env : os_env) (f : gmap string node) (rs : list reply)
    (l : list event) (choice : string) :
  missing_deps env f ≠ [] →
  let asked := "Do you want to install them using apt? (y/n): " in
  let found := EPrint ("Missing dependencies: " +:+ PyStr.join ", " (missing_deps env f)) in
  (PyStr.lower choice ≠ "y" →
     check_dependencies env (World f (Accept choice :: rs) l)
       = (Exit 1,
          World f rs
            (l ++ [found; EInput asked (Accept choice);
                   EPrint "Cannot proceed without dependencies."])))
  ∧ check_dependencies env (World f (Cancel :: rs) l)
    = (Raise EOFError, World f rs (l ++ [found; EInput asked Cancel])).
Proof.
  intros Hmiss asked found. subst asked found.
  rewrite !check_dependencies_unfold. cbn [fs].
  destruct (missing_deps env f) as [|m ms]; [done|].
  cbv [bind print input sys_exit ret emit fs replies log].
  split; [intros Hno%String.eqb_neq; rewrite Hno|]; by rewrite <- !app_assoc.
Qed.

Lemma check_dependencies_declined_witness :
  check_dependencies bare_env (World demo_fs [Accept "no"] [])
  = (Exit 1,
     World demo_fs []
       [EPrint "Missing dependencies: qemu-system-x86_64, qemu-img, dialog";
        EInput "Do you want to install them using apt? (y/n): " (Accept "no");
        EPrint "Cannot proceed without dependencies."]).
Proof.
  refine (proj1 (check_dependencies_declined bare_env demo_fs [] [] "no" _) _).
  - vm_compute. discriminate.
  - vm_compute. discriminate.
Defined.

Lemma package_of_known (m : string) :
  m ∈ ["qemu-system-x86_64"; "qemu-img"; "dialog"; "ovmf"] →
  package_of m ∈ ["ovmf"; "qemu-system-x86"; "dialog"].
Proof.
  intros Hm. rewrite !elem_of_cons in Hm.
  destruct Hm as [->|[->|[->|[->|Hm]]]]; [| | | |by apply elem_of_nil in Hm];
    lazymatch goal with
    | |- package_of ?m ∈ _ =>
        let v := eval vm_compute in (package_of m) in change (package_of m) with v
    end;
    rewrite !elem_of_cons; tauto.
Qed.

(** With something missing and the answer [y] or [Y], the check runs
    [sudo apt update] and then [sudo apt install -y] with the packages,
    and returns whatever the two statuses are; when [sudo] cannot be
    started, [FileNotFoundError] ends the check at that command, and a
    second command is not run after a first that could not be started.
    The packages are not empty, hold no package twice, are among [ovmf],
    [qemu-system-x86] and [dialog], and cover everything found missing. *)
Theorem check_dependencies_installs (env : os_env) (f : gmap string node) (rs : list reply)
    (l : list event) (choice : string) :
  missing_deps env f ≠ [] → PyStr.lower choice = "y" →
  ∃ packages : list string,
    let update := ["sudo"; "apt"; "update"] in
    let install := ["sudo"; "apt"; "install"; "-y"] ++ packages in
    let run := check_dependencies env (World f (Accept choice :: rs) l) in
    packages ≠ [] ∧ NoDup packages
    ∧ (∀ p, p ∈ packages → p ∈ ["ovmf"; "qemu-system-x86"; "dialog"])
    ∧ (∀ m, m ∈ missing_deps env f → package_of m ∈ packages)
    ∧ replies run.2 = rs
    ∧ match exec env update f with
      | None =>
          run.1 = Raise FileNotFoundError ∧ fs run.2 = f
          ∧ omap event_cmd (log run.2) = omap event_cmd l
      | Some (_, f1) =>
          match exec env install f1 with
          | None =>
              run.1 = Raise FileNotFoundError ∧ fs run.2 = f1
              ∧ omap event_cmd (log run.2) = omap event_cmd l ++ [update]
          | Some (_, f2) =>
              run.1 = Ret tt ∧ fs run.2 = f2
              ∧ omap event_cmd (log run.2) = omap event_cmd l ++ [update; install]
          end
      end.
Proof.
  intros Hmiss Hyes%String.eqb_eq.
  exists (remove_dups (map package_of (missing_deps env f))).
  cbv zeta. rewrite check_dependencies_unfold. cbn [fs].
  pose proof (missing_deps_known env f) as Hknown.
  destruct (missing_deps env f) as [|m ms] eqn:Hm; [done|].
  split; [|split; [apply NoDup_remove_dups|split; [|split]]].
  - intros Hnil. assert (package_of m ∈ remove_dups (map package_of (m :: ms))) as Hin
      by (apply elem_of_remove_dups; cbn [map]; left).
    rewrite Hnil in Hin. by apply elem_of_nil in Hin.
  - intros p (m' & -> & Hm')%elem_of_remove_dups%list_elem_of_fmap.
    apply package_of_known. auto.
  - intros m' Hm'. apply elem_of_remove_dups, list_elem_of_fmap. eauto.
  - cbv [bind print input ret emit fs replies log]. rewrite Hyes. cbv zeta.
    destruct (exec env ["sudo"; "apt"; "update"] f) as [[st1 f1]|] eqn:Hup.
    + rewrite (run_command_started _ _ _ _ _ _ _ Hup).
      destruct (exec env _ f1) as [[st2 f2]|] eqn:Hin.
      * rewrite (run_command_started _ _ _ _ _ _ _ Hin). cbn [fst snd fs replies log].
        split; [done|]. split; [done|]. split; [done|].
        repeat first [rewrite omap_app | rewrite failure_report_no_cmd
                     | progress cbn [omap list_omap event_cmd]].
        by rewrite ?app_nil_r, <- ?app_assoc.
      * rewrite (run_command_not_started _ _ _ _ _ Hin). cbn [fst snd fs replies log].
        split; [done|]. split; [done|]. split; [done|].
        repeat first [rewrite omap_app | rewrite failure_report_no_cmd
                     | progress cbn [omap list_omap event_cmd]].
        by rewrite ?app_nil_r, <- ?app_assoc.
    + rewrite (run_command_not_started _ _ _ _ _ Hup). cbn [fst snd fs replies log].
      split; [done|]. split; [done|]. split; [done|].
      repeat first [rewrite omap_app | progress cbn [omap list_omap event_cmd]].
      by rewrite ?app_nil_r.
Qed.

Lemma check_dependencies_installs_witness :
  let run := check_dependencies bare_env (World demo_fs [Accept "Y"] []) in
  run.1 = Ret tt
  ∧ omap event_cmd (log run.2)
    = [["sudo"; "apt"; "update"];
       ["sudo"; "apt"; "install"; "-y"; "qemu-system-x86"; "dialog"]].
Proof.
  intros run.
  destruct (check_dependencies_installs bare_env demo_fs [] [] "Y")
    as (packages & _ & _ & _ & _ & _ & Hrun).
  - vm_compute. discriminate.
  - reflexivity.
  - cbv zeta in Hrun. fold run in Hrun.
    change (exec bare_env ["sudo"; "apt"; "update"] demo_fs) with (Some (1, demo_fs)) in Hrun.
    change (exec bare_env (["sudo"; "apt"; "install"; "-y"] ++ packages) demo_fs)
      with (Some (1, demo_fs)) in Hrun.
    destruct Hrun as (Hres & _ & Hcmds). split; [exact Hres|].
    vm_compute. reflexivity.
Defined.

(** ** Whole sessions (lines 165 to 229) *)

(** In run mode with the disk image in place the session prints its two
    lines and launches QEMU once with the run-mode arguments, taking no
    answer.  When QEMU can be started the session ends normally whatever
    its status; when it cannot (line 220 is not guarded),
    [FileNotFoundError] ends the session after the two lines. *)
Theorem run_session_launches_once (env : os_env) (iso_path vm_dir mode : string)
    (is_uefi : bool) (f : gmap string node) (rs : list reply) (l : list event) :
  mode ≠ "install" →
  let d := disk_path vm_dir iso_path is_uefi in
  let args := run_args (qemu_args d (vars_path vm_dir iso_path) is_uefi) in
  let lines := [EPrint ("Starting RUN mode (" +:+ mode_name is_uefi +:+ ")");
                EPrint ("Launching QEMU: " +:+ PyStr.join " " args)] in
  Fs.exists_ f d = true →
  session env iso_path vm_dir is_uefi mode (World f rs l)
    = match exec env args f with
      | Some (status, f') => (Ret tt, World f' rs (l ++ lines ++ [ERun args status]))
      | None => (Raise FileNotFoundError, World f rs (l ++ lines))
      end.
Proof.
  intros Hmode%String.eqb_neq d args lines Hdisk.
  unfold session, build_invocation, run_mode, launch. rewrite Hmode. fold d.
  cbv [bind ret print path_exists subprocess_run emit fs replies log]. rewrite Hdisk.
  cbv [negb]. fold args. destruct (exec env args f) as [[st f']|];
    by rewrite <- !app_assoc.
Qed.

Lemma run_session_launches_once_witness :
  (session demo_env "/home/alexia/ubuntu.iso" "/home/alexia/vms" false "run"
     (World demo_fs [Cancel] [])).1 = Ret tt
  ∧ (session bare_env "/home/alexia/ubuntu.iso" "/home/alexia/vms" false "run"
       (World demo_fs [Cancel] [])).1 = Raise FileNotFoundError.
Proof.
  split.
  - rewrite (run_session_launches_once demo_env "/home/alexia/ubuntu.iso" "/home/alexia/vms"
               "run" false demo_fs [Cancel] []).
    + reflexivity.
    + discriminate.
    + vm_compute. reflexivity.
  - rewrite (run_session_launches_once bare_env "/home/alexia/ubuntu.iso" "/home/alexia/vms"
               "run" false demo_fs [Cancel] []).
    + reflexivity.
    + discriminate.
    + vm_compute. reflexivity.
Defined.

(** ** The rows of a menu, continued (lines 104 to 118) *)

Lemma filter_sublist {A} (P : A → bool) (l : list A) : sublist (List.filter P l) l.
Proof.
  induction l as [|x l IH]; [constructor|]. cbn [List.filter].
  destruct (P x); by constructor.
Qed.

Lemma filter_NoDup {A} (P : A → bool) (l : list A) : NoDup l → NoDup (List.filter P l).
Proof. intros Hl. eapply sublist_NoDup; [done|apply filter_sublist]. Qed.

Lemma sorted_filter_elem (P : string → bool) (items : list string) (x : string) :
  x ∈ merge_sort String.le (List.filter P items) → x ∈ items.
Proof.
  rewrite merge_sort_Permutation. intros Hx%list_elem_of_In%filter_In.
  apply list_elem_of_In. tauto.
Qed.

Lemma app_sep_inj (a b : string) : a +:+ "/" = b +:+ "/" → a = b.
Proof.
  revert b. induction a as [|c a IH]; intros [|c' b]; rewrite ?str_app_cons, ?str_app_nil_l.
  - done.
  - intros [= <- Hb]. by destruct b.
  - intros [= -> Ha]. by destruct a.
  - intros [= -> Hab]. f_equal. by apply IH.
Qed.

(** The tags of a menu are pairwise distinct when the listing is of plain
    names without repetition (as [os.listdir] gives them): the answer of
    the renderer names one row. *)
Theorem menu_tags_distinct (fs : gmap string node) (current_path : string)
    (select_dir : bool) (items : list string) :
  Fs.listdir fs current_path = LsOk items → NoDup items →
  NoDup (choices fs current_path select_dir items).*1.
Proof.
  intros Hls Hnd. unfold choices.
  set (dirs := merge_sort String.le (List.filter _ items)).
  set (files := merge_sort String.le (List.filter (λ f, Fs.isfile _ _) items)).
  assert (NoDup dirs) as Hdirs
    by (unfold dirs; rewrite merge_sort_Permutation; by apply filter_NoDup).
  assert (NoDup files) as Hfiles
    by (unfold files; rewrite merge_sort_Permutation; by apply filter_NoDup).
  assert (∀ x, x ∈ files → x ≠ "." ∧ x ≠ ".." ∧ PyStr.endswith "/" x = false) as Hplain.
  { intros x Hx%sorted_filter_elem. eapply listdir_plain_names; eauto. }
  set (dir_tags := map (λ d : string, (d +:+ "/", "(Dir)")) dirs).
  set (file_tags := map (λ f : string, (f, "(File)")) files).
  assert (∀ t, t ∈ dir_tags.*1 → PyStr.endswith "/" t = true) as Hdt.
  { intros t (row & -> & (d & -> & _)%list_elem_of_fmap)%list_elem_of_fmap.
    apply endswith_sep. }
  assert (∀ t, t ∈ file_tags.*1 → t ∈ files) as Hft.
  { by intros t (row & -> & (f & -> & ?)%list_elem_of_fmap)%list_elem_of_fmap. }
  assert (NoDup file_tags.*1) as Hnf.
  { unfold file_tags. change (map ?g files) with (g <$> files).
    rewrite <- list_fmap_compose. by rewrite (list_fmap_ext _ id files) , list_fmap_id. }
  assert (NoDup dir_tags.*1) as Hndt.
  { unfold dir_tags. change (map ?g dirs) with (g <$> dirs).
    rewrite <- list_fmap_compose. apply NoDup_fmap_2_strong; [|done].
    intros a b _ _ Hab. by apply app_sep_inj. }
  rewrite !fmap_app. repeat (apply NoDup_app; split; [|split]).
  - destruct select_dir; [apply NoDup_singleton|apply NoDup_nil_2].
  - intros t Ht. assert (t = ".") as ->.
    { destruct select_dir; [by apply list_elem_of_singleton in Ht|by apply elem_of_nil in Ht]. }
    rewrite !elem_of_app. intros [Hin|[Hin|Hin]].
    + by apply list_elem_of_singleton in Hin.
    + by apply Hdt in Hin.
    + apply Hft, Hplain in Hin. tauto.
  - apply NoDup_singleton.
  - intros t ->%list_elem_of_singleton. rewrite !elem_of_app. intros [Hin|Hin].
    + by apply Hdt in Hin.
    + apply Hft, Hplain in Hin. tauto.
  - done.
  - intros t Ht%Hdt Hin%Hft%Hplain. destruct Hin as (_ & _ & Hin). congruence.
  - done.
Qed.

Lemma menu_tags_distinct_witness :
  NoDup (choices demo_fs "/home/alexia" true (Fs.children demo_fs "/home/alexia")).*1.
Proof.
  apply menu_tags_distinct.
  - vm_compute. reflexivity.
  - apply (bool_decide_unpack _). vm_compute. exact I.
Defined.

